(** * URL summarization service: request handling, fallback and error taxonomy

    A shallow embedding of [app.py] (the FastAPI endpoint) and
    [streamlit_app.py] (the interactive form).  Both files are glue around
    third-party collaborators (the YouTube transcript loader, the generic
    URL loader, the Groq chat model and the LangChain summarize chain, and
    the [validators] package).  The collaborators are not part of the
    repository, so they are taken as a record of oracles; everything the
    two Python files themselves do (trimming, validation order, the
    two-stage fallback, the [try]/[except] structure, the log and error
    messages) is modelled as written.

    Effects are modelled by a small monad that threads a chronological
    trace of events (collaborator calls, log records, Streamlit widgets)
    and a Python exception or a value as the outcome.  A raised exception
    keeps the trace, as in Python, where a log line written before a
    [raise] stays written. *)

From Stdlib Require Import ZArith List Bool Ascii String Lia.
From Stdlib Require Import Numbers.DecimalString.
Import ListNotations.

Open Scope list_scope.
Open Scope string_scope.

(** ** Python strings

    A Python [str] is a sequence of code points; the model uses Rocq
    strings, i.e. sequences of code points below 256.  [isspace] is
    [str.isspace] restricted to that range. *)

Definition isspace (c : ascii) : bool :=
  let n := nat_of_ascii c in
  (Nat.leb 9 n && Nat.leb n 13) || (Nat.leb 28 n && Nat.leb n 32)
  || Nat.eqb n 133 || Nat.eqb n 160.

(** [s.lstrip()] *)
Fixpoint lstrip (s : string) : string :=
  match s with
  | EmptyString => EmptyString
  | String c s' => if isspace c then lstrip s' else s
  end.

(** [s.rstrip()] *)
Fixpoint rstrip (s : string) : string :=
  match s with
  | EmptyString => EmptyString
  | String c s' =>
      match rstrip s' with
      | EmptyString => if isspace c then EmptyString else String c EmptyString
      | r => String c r
      end
  end.

(** [s.strip()] *)
Definition strip (s : string) : string := rstrip (lstrip s).

(** Truth value of a [str] and of a [list]: empty is false. *)
Definition truthy_str (s : string) : bool :=
  match s with EmptyString => false | _ => true end.

Definition truthy_list {A : Type} (l : list A) : bool :=
  match l with [] => false | _ => true end.

(** [s.startswith(p)] *)
Fixpoint startswith (p s : string) : bool :=
  match p, s with
  | EmptyString, _ => true
  | String a p', String b s' => Ascii.eqb a b && startswith p' s'
  | String _ _, EmptyString => false
  end.

(** [needle in hay] on strings: [needle] occurs as a contiguous run. *)
Fixpoint str_in (needle hay : string) : bool :=
  startswith needle hay
  || match hay with
     | EmptyString => false
     | String _ hay' => str_in needle hay'
     end.

(** Any whitespace character in [s]: [re.search(r"\s", s)]. *)
Fixpoint has_space (s : string) : bool :=
  match s with
  | EmptyString => false
  | String c s' => isspace c || has_space s'
  end.

(** [str(n)] for an integer. *)
Definition str_of_Z (n : Z) : string := NilEmpty.string_of_int (Z.to_int n).

(** ** Exceptions

    The values are the instances of Python's [Exception], which is what
    every [except Exception] of the two files ranges over.  The handlers
    distinguish exactly three classes below it: FastAPI's [HTTPException],
    the builtin [ValueError] (with its subclasses), and everything else. *)

Inductive exn : Type :=
| HTTPException (status_code : Z) (detail : string)
| ValueError (msg : string)
| OtherException (msg : string).

(** [str(e)].  Starlette prints an [HTTPException] as ["<status>: <detail>"];
    the other two print their message. *)
Definition str (e : exn) : string :=
  match e with
  | HTTPException s d => str_of_Z s ++ ": " ++ d
  | ValueError m => m
  | OtherException m => m
  end.

Definition is_HTTPException (e : exn) : bool :=
  match e with HTTPException _ _ => true | _ => false end.

(** ** Data model *)

(** [langchain_core.documents.Document]: opaque to the program, which only
    tests a list of them for emptiness. *)
Record Document : Type := mkDocument {
  page_content : string;
  metadata : list (string * string)
}.

(** [pydantic.SecretStr] *)
Record SecretStr : Type := mkSecretStr { get_secret_value : string }.

Record SummarizationRequest : Type := mkSummarizationRequest {
  groq_api_key : SecretStr;
  url : string
}.

(** [langchain.prompts.PromptTemplate] *)
Record PromptTemplate : Type := mkPromptTemplate {
  template : string;
  input_variables : list string
}.

(** The object [ChatGroq(model=..., groq_api_key=...)] evaluates to. *)
Record ChatGroq : Type := mkChatGroq {
  model : string;
  llm_api_key : string
}.

Record TextSummarizer : Type := mkTextSummarizer {
  llm : ChatGroq;
  prompt : PromptTemplate
}.

(** ** Collaborators

    What the third-party libraries answer.  Within one request every
    collaborator is called at most once with the same arguments, so a
    function of the arguments loses nothing. *)

Record Collaborators : Type := mkCollaborators {
  (** [validators.url(value)], as a truth value *)
  validators_url : string -> bool;
  (** [YoutubeLoader.from_youtube_url(url, add_video_info, language).load()] *)
  YoutubeLoader_load : string -> bool -> list string -> exn + list Document;
  (** [UnstructuredURLLoader(urls, ssl_verify, headers).load()] *)
  UnstructuredURLLoader_load :
    list string -> bool -> list (string * string) -> exn + list Document;
  (** [ChatGroq(model, groq_api_key)]: [Some e] when the constructor raises *)
  ChatGroq_init : string -> string -> option exn;
  (** [load_summarize_chain(llm, chain_type, prompt).run(docs)] *)
  chain_run : ChatGroq -> string -> PromptTemplate -> list Document -> exn + string
}.

(** ** Events and the effect monad *)

Inductive level : Type := INFO | WARNING | ERROR.

Inductive event : Type :=
| CallYoutubeLoader (url : string) (add_video_info : bool) (language : list string)
| CallUnstructuredURLLoader (urls : list string) (ssl_verify : bool)
    (headers : list (string * string))
| CallChatGroq (model : string) (api_key : string)
| CallChain (llm : ChatGroq) (chain_type : string) (prompt : PromptTemplate)
    (docs : list Document)
| Log (lvl : level) (msg : string)
| LogException (msg : string) (e : exn)   (* [logger.exception]: message and traceback *)
| StError (msg : string)                  (* [st.error] *)
| StSuccess (msg : string).               (* [st.success] *)

Definition trace : Type := list event.

Definition M (A : Type) : Type := trace -> (exn + A) * trace.

Definition ret {A : Type} (a : A) : M A := fun t => (inr a, t).

Definition bind {A B : Type} (m : M A) (f : A -> M B) : M B :=
  fun t =>
    match m t with
    | (inl e, t') => (inl e, t')
    | (inr a, t') => f a t'
    end.

Definition raise {A : Type} (e : exn) : M A := fun t => (inl e, t).

(** [try: m  except Exception as e: h e] -- the handler picks the clause. *)
Definition try_except {A : Type} (m : M A) (h : exn -> M A) : M A :=
  fun t =>
    match m t with
    | (inl e, t') => h e t'
    | (inr a, t') => (inr a, t')
    end.

Definition emit (ev : event) : M unit := fun t => (inr tt, (t ++ [ev])%list).

(** A collaborator call: recorded, then its answer is the outcome. *)
Definition call {A : Type} (ev : event) (answer : exn + A) : M A :=
  fun t => (answer, (t ++ [ev])%list).

Definition run {A : Type} (m : M A) : (exn + A) * trace := m [].

Declare Scope py_scope.
Delimit Scope py_scope with py.
Notation "x <- m ;; k" := (bind m (fun x => k))
  (at level 61, m at next level, right associativity) : py_scope.
Notation "m ;; k" := (bind m (fun _ => k))
  (at level 61, right associativity) : py_scope.
Open Scope py_scope.

Definition logger_info (msg : string) : M unit := emit (Log INFO msg).
Definition logger_warning (msg : string) : M unit := emit (Log WARNING msg).
Definition logger_error (msg : string) : M unit := emit (Log ERROR msg).
Definition logger_exception (msg : string) (e : exn) : M unit :=
  emit (LogException msg e).
Definition st_error (msg : string) : M unit := emit (StError msg).
Definition st_success (msg : string) : M unit := emit (StSuccess msg).

(** ** Constants shared by both files *)

Definition GEMMA_MODEL : string := "gemma2-9b-it".

Definition USER_AGENT : string :=
  "Mozilla/5.0 (Macintosh; Intel Mac OS X 13_5_1) AppleWebKit/537.36 (KHTML, like Gecko) Chrome/116.0.0.0 Safari/537.36".

Definition nl : string := String (ascii_of_nat 10) EmptyString.

Definition summary_template : string :=
  nl ++ "            Provide a summary of the following content in 300 words for the below content:"
  ++ nl ++ "            **Content:** {text}"
  ++ nl ++ "            ".

(** The YouTube guidance text of [load_content]'s last handler. *)
Definition youtube_guidance : string :=
  "Failed to load YouTube content. Please ensure:" ++ nl ++
  "1. The video exists and is publicly available" ++ nl ++
  "2. The video has English subtitles/captions available" ++ nl ++
  "3. The URL is correct and accessible".

(** ["youtube.com" in url or "youtu.be" in url] *)
Definition is_youtube (url : string) : bool :=
  str_in "youtube.com" url || str_in "youtu.be" url.

(** [TextSummarizer.__init__], identical in both files. *)
Definition TextSummarizer_init (w : Collaborators) (api_key : string)
  : M TextSummarizer :=
  l <- call (CallChatGroq GEMMA_MODEL api_key)
         (match ChatGroq_init w GEMMA_MODEL api_key with
          | Some e => inl e
          | None => inr (mkChatGroq GEMMA_MODEL api_key)
          end) ;;
  ret (mkTextSummarizer l (mkPromptTemplate summary_template ["text"])).

(** One attempt of [extract_youtube_content]: the body of a [try] block up
    to its [return].  [Some docs] is the early return, [None] falls out of
    the block. *)
Definition youtube_attempt (w : Collaborators) (url : string)
    (add_video_info : bool) (success_msg : string)
  : M (option (list Document)) :=
  docs <- call (CallYoutubeLoader url add_video_info ["en"])
            (YoutubeLoader_load w url add_video_info ["en"]) ;;
  if truthy_list docs
  then logger_info (success_msg ++ url) ;; ret (Some docs)
  else ret None.

(** [UnstructuredURLLoader(urls=[url], ssl_verify=False, headers=...).load()] *)
Definition web_load (w : Collaborators) (url : string) : M (list Document) :=
  call (CallUnstructuredURLLoader [url] false [("User-Agent", USER_AGENT)])
    (UnstructuredURLLoader_load w [url] false [("User-Agent", USER_AGENT)]).

(** [load_summarize_chain(self.llm, chain_type="stuff", prompt=self.prompt).run(docs)] *)
Definition run_chain (w : Collaborators) (self : TextSummarizer)
    (docs : list Document) : M string :=
  call (CallChain (llm self) "stuff" (prompt self) docs)
    (chain_run w (llm self) "stuff" (prompt self) docs).

(** ** [app.py]: the programmatic endpoint *)

Module App.

Definition extract_youtube_content (w : Collaborators) (self : TextSummarizer)
    (url : string) : M (list Document) :=
  r1 <- try_except
          (youtube_attempt w url true
             "Successfully loaded YouTube content with video info from ")
          (fun e =>
             logger_warning ("Failed to load YouTube with video info: " ++ str e) ;;
             ret None) ;;
  match r1 with
  | Some docs => ret docs
  | None =>
      r2 <- try_except
              (youtube_attempt w url false
                 "Successfully loaded YouTube content without video info from ")
              (fun e =>
                 logger_error ("Failed to load YouTube content: " ++ str e) ;;
                 raise (HTTPException 400
                   "Could not extract YouTube transcript. Please ensure the video has English subtitles available.")) ;;
      match r2 with
      | Some docs => ret docs
      | None =>
          raise (HTTPException 400
                   "No content could be extracted from the YouTube video")
      end
  end.

Definition load_content (w : Collaborators) (self : TextSummarizer)
    (url : string) : M (list Document) :=
  try_except
    (if is_youtube url
     then extract_youtube_content w self url
     else
       docs <- web_load w url ;;
       if negb (truthy_list docs)
       then raise (HTTPException 400 "No content could be extracted from the URL")
       else ret docs)
    (fun e =>
       match e with
       | HTTPException _ _ => raise e
       | _ =>
           logger_error ("Error loading content from URL " ++ url ++ ": " ++ str e) ;;
           if is_youtube url
           then raise (HTTPException 400 youtube_guidance)
           else raise (HTTPException 400 ("Failed to load content: " ++ str e))
       end).

Definition generate_summary (w : Collaborators) (self : TextSummarizer)
    (docs : list Document) : M string :=
  try_except
    (run_chain w self docs)
    (fun e =>
       logger_error ("Error generating summary: " ++ str e) ;;
       raise (HTTPException 500 ("Failed to generate summary: " ++ str e))).

(** [POST /summarize].  The returned dict is an association list. *)
Definition summarize (w : Collaborators) (request : SummarizationRequest)
  : M (list (string * string)) :=
  let groq_api_key := strip (get_secret_value (groq_api_key request)) in
  let url := strip (url request) in
  if negb (truthy_str groq_api_key)
  then raise (HTTPException 400 "API Key is required")
  else if negb (truthy_str url)
  then raise (HTTPException 400 "URL is required")
  else if negb (validators_url w url)
  then raise (HTTPException 400 "Invalid URL provided")
  else
    try_except
      (summarizer <- TextSummarizer_init w groq_api_key ;;
       docs <- load_content w summarizer url ;;
       summary <- generate_summary w summarizer docs ;;
       ret [("summary", summary)])
      (fun e =>
         match e with
         | HTTPException _ _ => raise e
         | _ =>
             logger_exception "Unexpected error occurred" e ;;
             raise (HTTPException 500 ("An unexpected error occurred: " ++ str e))
         end).

(** [GET /health] *)
Definition health_check : M (list (string * string)) :=
  ret [("status", "healthy")].

End App.

(** ** [streamlit_app.py]: the interactive form *)

Module StreamlitApp.

Definition extract_youtube_content (w : Collaborators) (self : TextSummarizer)
    (url : string) : M (list Document) :=
  r1 <- try_except
          (youtube_attempt w url true
             "Successfully loaded YouTube content with video info from ")
          (fun e =>
             logger_warning ("Failed to load YouTube with video info: " ++ str e) ;;
             ret None) ;;
  match r1 with
  | Some docs => ret docs
  | None =>
      r2 <- try_except
              (youtube_attempt w url false
                 "Successfully loaded YouTube content without video info from ")
              (fun e =>
                 logger_error ("Failed to load YouTube content: " ++ str e) ;;
                 raise (ValueError
                   "Could not extract YouTube transcript. Please ensure the video has English subtitles available.")) ;;
      match r2 with
      | Some docs => ret docs
      | None =>
          raise (ValueError "No content could be extracted from the YouTube video")
      end
  end.

Definition load_content (w : Collaborators) (self : TextSummarizer)
    (url : string) : M (list Document) :=
  try_except
    (if is_youtube url
     then extract_youtube_content w self url
     else
       docs <- web_load w url ;;
       if negb (truthy_list docs)
       then raise (ValueError "No content could be extracted from the URL")
       else ret docs)
    (fun e =>
       logger_error ("Error loading content from URL " ++ url ++ ": " ++ str e) ;;
       if is_youtube url
       then raise (ValueError youtube_guidance)
       else raise (ValueError ("Failed to load content: " ++ str e))).

Definition generate_summary (w : Collaborators) (self : TextSummarizer)
    (docs : list Document) : M string :=
  try_except
    (run_chain w self docs)
    (fun e =>
       logger_error ("Error generating summary: " ++ str e) ;;
       raise (ValueError ("Failed to generate summary: " ++ str e))).

(** The body of [main] that runs when the button is pressed; [api_key] and
    [url] are the values of the two text inputs.  Page set-up (title,
    sub-header) is outside the request path and left out. *)
Definition main (w : Collaborators) (api_key url : string) : M unit :=
  try_except
    (if negb (truthy_str (strip api_key)) || negb (truthy_str (strip url))
     then st_error "Please provide both API key and URL to get started"
     else if negb (validators_url w url)
     then st_error "Please enter a valid URL (YouTube video or website)"
     else
       summarizer <- TextSummarizer_init w api_key ;;
       docs <- load_content w summarizer url ;;
       summary <- generate_summary w summarizer docs ;;
       st_success summary ;;
       logger_info "Successfully generated summary")
    (fun e =>
       match e with
       | ValueError _ => st_error (str e)
       | _ =>
           logger_exception "Unexpected error occurred" e ;;
           st_error "An unexpected error occurred. Please try again later."
       end).

End StreamlitApp.

(** ** Test doubles

    A collaborator record built from fixed answers, for concrete runs. *)

(** A stand-in for [validators.url]: it rejects, as the package does, every
    value that is empty or contains white space, and asks for an
    [http://] or [https://] prefix. *)
Definition stub_validators_url (value : string) : bool :=
  truthy_str value && negb (has_space value)
  && (startswith "http://" value || startswith "https://" value).

Definition stub (yt_with_info yt_plain web : exn + list Document)
    (init : string -> option exn) (chain : ChatGroq -> exn + string)
  : Collaborators :=
  {| validators_url := stub_validators_url;
     YoutubeLoader_load := fun _ add_video_info _ =>
       if add_video_info then yt_with_info else yt_plain;
     UnstructuredURLLoader_load := fun _ _ _ => web;
     ChatGroq_init := fun _ key => init key;
     chain_run := fun l _ _ _ => chain l |}.

Definition transcript : Document :=
  mkDocument "hello and welcome to the video" [("source", "dQw4w9WgXcQ")].

Definition page : Document :=
  mkDocument "Example Domain" [("source", "https://example.com")].

Definition a_summarizer : TextSummarizer :=
  mkTextSummarizer (mkChatGroq GEMMA_MODEL "gsk_live")
    (mkPromptTemplate summary_template ["text"]).

(** ** Observations on a trace *)

Definition is_call (ev : event) : bool :=
  match ev with
  | CallYoutubeLoader _ _ _ | CallUnstructuredURLLoader _ _ _
  | CallChatGroq _ _ | CallChain _ _ _ _ => true
  | _ => false
  end.

(** The collaborator calls of a trace, in order. *)
Definition calls (t : trace) : list event := filter is_call t.

Definition is_log (ev : event) : bool :=
  match ev with
  | Log _ _ | LogException _ _ => true
  | _ => false
  end.

(** The log records of a trace, in order. *)
Definition logs (t : trace) : list event := filter is_log t.

(** An attempt fails when it throws or yields no document. *)
Definition attempt_fails (a : exn + list Document) : bool :=
  match a with
  | inl _ => true
  | inr docs => negb (truthy_list docs)
  end.

(** ** Specification vocabulary *)

(** A computation is framed when it only appends to the trace it is given. *)
Definition framed {A : Type} (m : M A) : Prop :=
  forall t, m t = (fst (m []), (t ++ snd (m []))%list).

(** What the fallback policy promises about one run on a video URL, given
    the answers of the two attempts: which documents come back and which
    collaborator calls were made, in order. *)
Definition two_stage_fallback (w : Collaborators) (url : string)
    (outcome : (exn + list Document) * trace) : Prop :=
  let first := YoutubeLoader_load w url true ["en"] in
  let second := YoutubeLoader_load w url false ["en"] in
  let stage1 := CallYoutubeLoader url true ["en"] in
  let stage2 := CallYoutubeLoader url false ["en"] in
  (forall docs, first = inr docs -> docs <> [] ->
     fst outcome = inr docs /\ calls (snd outcome) = [stage1])
  /\ (attempt_fails first = true ->
      forall docs, second = inr docs -> docs <> [] ->
        fst outcome = inr docs /\ calls (snd outcome) = [stage1; stage2])
  /\ (attempt_fails first = true -> attempt_fails second = true ->
      (exists e, fst outcome = inl e) /\ calls (snd outcome) = [stage1; stage2]).

(** The header the generic loader is given. *)
Definition web_headers : list (string * string) := [("User-Agent", USER_AGENT)].

(** A message guides the caller to check that the video is public and has
    English captions when it speaks of both. *)
Definition guides_public_and_captions (msg : string) : bool :=
  str_in "public" msg && str_in "English" msg.

Definition could_not_extract : string :=
  "Could not extract YouTube transcript. Please ensure the video has English subtitles available.".

Definition no_youtube_content : string :=
  "No content could be extracted from the YouTube video".

(** The reading of the transcript-failure rule that asks the endpoint for a
    400 whose message gives the public-and-captions guidance. *)
Definition transcript_failure_gives_guidance : Prop :=
  forall (w : Collaborators) (self : TextSummarizer) (url : string),
    is_youtube url = true ->
    attempt_fails (YoutubeLoader_load w url true ["en"]) = true ->
    attempt_fails (YoutubeLoader_load w url false ["en"]) = true ->
    exists detail,
      fst (run (App.load_content w self url)) = inl (HTTPException 400 detail)
      /\ guides_public_and_captions detail = true.

(** The summarizer [TextSummarizer(api_key)] builds when the Groq client
    accepts the key. *)
Definition summarizer_for (api_key : string) : TextSummarizer :=
  mkTextSummarizer (mkChatGroq GEMMA_MODEL api_key)
    (mkPromptTemplate summary_template ["text"]).

Definition request (credential url : string) : SummarizationRequest :=
  mkSummarizationRequest (mkSecretStr credential) url.

(** What the last two [except] clauses of [summarize] turn an exception
    into, and what they log. *)
Definition at_endpoint (e : exn) : exn * trace :=
  match e with
  | HTTPException _ _ => (e, [])
  | _ => (HTTPException 500 ("An unexpected error occurred: " ++ str e),
          [LogException "Unexpected error occurred" e])
  end.

(** What the two [except] clauses of the form's [main] show and log. *)
Definition at_form (e : exn) : trace :=
  match e with
  | ValueError m => [StError m]
  | _ => [LogException "Unexpected error occurred" e;
          StError "An unexpected error occurred. Please try again later."]
  end.

(** A front end delegates when it goes on to build the summarizer. *)
Definition delegates (t : trace) : bool :=
  existsb (fun ev => match ev with CallChatGroq _ _ => true | _ => false end) t.

(** The third-party libraries know nothing of FastAPI: the generic loader
    and the Groq client never raise its [HTTPException]. *)
Definition third_party (w : Collaborators) : Prop :=
  (forall urls verify headers e,
      UnstructuredURLLoader_load w urls verify headers = inl e ->
      is_HTTPException e = false)
  /\ (forall model key e,
      ChatGroq_init w model key = Some e -> is_HTTPException e = false).

(** The events that hand something to the Summary Generator: building the
    Groq client and running the chain on it. *)
Definition configures_generator (ev : event) : bool :=
  match ev with
  | CallChatGroq _ _ | CallChain _ _ _ _ => true
  | _ => false
  end.

(** Everything a run did apart from talking to the Summary Generator. *)
Definition outside_generator (t : trace) : trace :=
  filter (fun ev => negb (configures_generator ev)) t.

(** The error a run surfaces to its caller, if any. *)
Definition surfaced_error {A : Type} (outcome : (exn + A) * trace) : option exn :=
  match fst outcome with
  | inl e => Some e
  | inr _ => None
  end.

(** The reading of the credential rule as non-interference: two runs of the
    endpoint that differ only in the credential surface the same error and
    write the same log. *)
Definition credential_never_shows : Prop :=
  forall (w : Collaborators) (credential1 credential2 u : string),
    surfaced_error (run (App.summarize w (request credential1 u))) =
    surfaced_error (run (App.summarize w (request credential2 u)))
    /\ logs (snd (run (App.summarize w (request credential1 u)))) =
       logs (snd (run (App.summarize w (request credential2 u)))).

(** A Groq service that has revoked one key. *)
Definition revoked_key_world : Collaborators :=
  stub (inr []) (inr []) (inr [page]) (fun _ => None)
    (fun l => if String.eqb (llm_api_key l) "gsk_revoked"
              then inl (OtherException "Error code: 401 - Invalid API Key")
              else inr "Summary text").

(** A Groq client that refuses a malformed key when it is built. *)
Definition strict_client_world : Collaborators :=
  stub (inr []) (inr []) (inr [page])
    (fun key => if startswith "gsk_" key then None
                else Some (ValueError "groq_api_key: malformed key"))
    (fun _ => inr "Summary text").

(** Collaborators that all answer. *)
Definition happy_world : Collaborators :=
  stub (inl (OtherException "video info unavailable")) (inr [transcript])
    (inr [page]) (fun _ => None) (fun _ => inr "Summary text").

(** Collaborators that find nothing anywhere. *)
Definition empty_world : Collaborators :=
  stub (inr []) (inr []) (inr []) (fun _ => None) (fun _ => inr "Summary text").

(** Every character of [s] is white space ([s] empty included). *)
Fixpoint all_space (s : string) : bool :=
  match s with
  | EmptyString => true
  | String c s' => isspace c && all_space s'
  end.

(** What a run of the form put on the page. *)
Definition is_message (ev : event) : bool :=
  match ev with
  | StError _ | StSuccess _ => true
  | _ => false
  end.

Definition messages (t : trace) : list event := filter is_message t.

(** The runs of the summarize chain in a trace. *)
Definition is_chain_call (ev : event) : bool :=
  match ev with
  | CallChain _ _ _ _ => true
  | _ => false
  end.

Definition chain_calls (t : trace) : list event := filter is_chain_call t.

(** The fixed prompt of [TextSummarizer.__init__]. *)
Definition summary_prompt : PromptTemplate :=
  mkPromptTemplate summary_template ["text"].

(** The apology of the form's last handler. *)
Definition apology : string :=
  "An unexpected error occurred. Please try again later.".

(** Every error the endpoint can answer with. *)
Definition endpoint_error (e : exn) : Prop :=
  In e [HTTPException 400 "API Key is required";
        HTTPException 400 "URL is required";
        HTTPException 400 "Invalid URL provided";
        HTTPException 400 could_not_extract;
        HTTPException 400 no_youtube_content;
        HTTPException 400 "No content could be extracted from the URL"]
  \/ exists cause,
       e = HTTPException 400 ("Failed to load content: " ++ cause)
       \/ e = HTTPException 500 ("Failed to generate summary: " ++ cause)
       \/ e = HTTPException 500 ("An unexpected error occurred: " ++ cause).

(** The records [logger.exception] wrote. *)
Definition is_exception_log (ev : event) : bool :=
  match ev with
  | LogException _ _ => true
  | _ => false
  end.

Definition exception_logs (t : trace) : list event := filter is_exception_log t.

(** A generic loader that cannot reach the site. *)
Definition failing_loader_world : Collaborators :=
  stub (inr []) (inr []) (inl (OtherException "HTTPSConnectionPool: timed out"))
    (fun _ => None) (fun _ => inr "Summary text").

(** The reading of the constructor rule on the form: whatever the Groq
    client's constructor throws on a request that passed the checks, the
    failure is treated as unexpected, that is, logged with
    [logger.exception] and shown as the fixed apology. *)
Definition form_constructor_failure_is_unexpected : Prop :=
  forall (w : Collaborators) (api_key u : string) (e : exn),
    strip api_key <> "" -> strip u <> "" -> validators_url w u = true ->
    ChatGroq_init w GEMMA_MODEL api_key = Some e ->
    exception_logs (snd (run (StreamlitApp.main w api_key u))) =
      [LogException "Unexpected error occurred" e]
    /\ messages (snd (run (StreamlitApp.main w api_key u))) = [StError apology].

(** * Properties *)

(** ** Strings: what [startswith], [in] and truth values decide *)

Lemma truthy_str_true (s : string) : truthy_str s = true <-> s <> "".
Proof.
  destruct s; simpl; split; intro H; congruence.
Qed.

Lemma truthy_str_false (s : string) : truthy_str s = false <-> s = "".
Proof. destruct s; simpl; split; intro H; congruence. Qed.

Lemma truthy_list_true {A : Type} (l : list A) : truthy_list l = true <-> l <> [].
Proof.
  destruct l; simpl; split; intro H; congruence.
Qed.

Lemma startswith_spec (p s : string) :
  startswith p s = true <-> exists rest, s = p ++ rest.
Proof.
  revert s; induction p as [|a p IH]; intros s; simpl.
  - split; [intros _; now exists s | reflexivity].
  - destruct s as [|b s].
    + split; [discriminate | intros [rest H]; discriminate].
    + rewrite andb_true_iff, Ascii.eqb_eq, IH. split.
      * intros [-> [rest ->]]. now exists rest.
      * intros [rest H]. injection H as -> ->. split; [reflexivity | now exists rest].
Qed.

Lemma str_in_spec (needle hay : string) :
  str_in needle hay = true <-> exists before after, hay = before ++ needle ++ after.
Proof.
  induction hay as [|c hay IH]; simpl.
  - rewrite orb_false_r, startswith_spec. split.
    + intros [rest H]. now exists "", rest.
    + intros [[|b before] [after H]]; [now exists after | discriminate].
  - rewrite orb_true_iff, startswith_spec, IH. split.
    + intros [[rest H] | [before [after H]]].
      * now exists "", rest.
      * exists (String c before), after. simpl. now rewrite H.
    + intros [[|b before] [after H]].
      * left. now exists after.
      * right. simpl in H. injection H as _ H. now exists before, after.
Qed.

Lemma str_in_append (pre cause : string) : str_in cause (pre ++ cause) = true.
Proof.
  apply str_in_spec. exists pre, "".
  f_equal. clear. induction cause as [|c s IH]; simpl; [reflexivity | now rewrite <- IH].
Qed.

(** ** The effect monad: a computation only appends to the trace *)


Lemma framed_ret {A : Type} (a : A) : framed (ret a).
Proof. intro t. unfold ret. simpl. now rewrite app_nil_r. Qed.

Lemma framed_raise {A : Type} (e : exn) : framed (@raise A e).
Proof. intro t. unfold raise. simpl. now rewrite app_nil_r. Qed.

Lemma framed_emit (ev : event) : framed (emit ev).
Proof. intro t. reflexivity. Qed.

Lemma framed_call {A : Type} (ev : event) (answer : exn + A) :
  framed (call ev answer).
Proof. intro t. reflexivity. Qed.

Lemma framed_bind {A B : Type} (m : M A) (f : A -> M B) :
  framed m -> (forall a, framed (f a)) -> framed (bind m f).
Proof.
  intros Hm Hf t. unfold bind. rewrite (Hm t).
  destruct (m []) as [[e | a] t1]; simpl.
  - reflexivity.
  - rewrite (Hf a (t ++ t1)%list), (Hf a t1). simpl. now rewrite app_assoc.
Qed.

Lemma framed_try_except {A : Type} (m : M A) (h : exn -> M A) :
  framed m -> (forall e, framed (h e)) -> framed (try_except m h).
Proof.
  intros Hm Hh t. unfold try_except. rewrite (Hm t).
  destruct (m []) as [[e | a] t1]; simpl.
  - rewrite (Hh e (t ++ t1)%list), (Hh e t1). simpl. now rewrite app_assoc.
  - reflexivity.
Qed.

Lemma framed_if {A : Type} (b : bool) (m1 m2 : M A) :
  framed m1 -> framed m2 -> framed (if b then m1 else m2).
Proof. now destruct b. Qed.

(** Framing follows the shape of the program. *)
Ltac frame_steps :=
  repeat first
    [ apply framed_ret | apply framed_raise | apply framed_emit
    | apply framed_call | apply framed_if
    | apply framed_bind; [| intro]
    | apply framed_try_except; [| intro]
    | match goal with
      | |- framed (match ?x with _ => _ end) => destruct x
      end ].

(** Running a sequence: the second part runs on from the first one's trace. *)
Lemma run_bind {A B : Type} (m : M A) (f : A -> M B) :
  (forall a, framed (f a)) ->
  run (bind m f) =
  match run m with
  | (inl e, t1) => (inl e, t1)
  | (inr a, t1) => (fst (run (f a)), (t1 ++ snd (run (f a)))%list)
  end.
Proof.
  intros Hf. unfold run, bind.
  destruct (m []) as [[e | a] t1]; [reflexivity | apply Hf].
Qed.

Lemma run_try_except {A : Type} (m : M A) (h : exn -> M A) :
  (forall e, framed (h e)) ->
  run (try_except m h) =
  match run m with
  | (inl e, t1) => (fst (run (h e)), (t1 ++ snd (run (h e)))%list)
  | (inr a, t1) => (inr a, t1)
  end.
Proof.
  intros Hh. unfold run, try_except.
  destruct (m []) as [[e | a] t1]; [apply Hh | reflexivity].
Qed.

Lemma calls_app (t1 t2 : trace) : calls (t1 ++ t2)%list = (calls t1 ++ calls t2)%list.
Proof. apply filter_app. Qed.

Lemma logs_app (t1 t2 : trace) : logs (t1 ++ t2)%list = (logs t1 ++ logs t2)%list.
Proof. apply filter_app. Qed.

(** Unfolding the monad and the logging helpers down to pairs and traces. *)
Ltac py_unfold :=
  unfold run, youtube_attempt, web_load, run_chain, TextSummarizer_init,
    logger_info, logger_warning, logger_error, logger_exception,
    st_error, st_success, try_except, bind, ret, raise, emit, call in *.

(** Case analysis on an attempt: it throws, is empty, or has documents. *)
Ltac attempt_cases a :=
  let e := fresh "e" in
  let d := fresh "d" in
  let ds := fresh "ds" in
  destruct a as [e | [| d ds]].

Section Summarizer.

Variable w : Collaborators.
Variable self : TextSummarizer.

Lemma framed_TextSummarizer_init (api_key : string) :
  framed (TextSummarizer_init w api_key).
Proof. unfold TextSummarizer_init. frame_steps. Qed.

Lemma framed_youtube_attempt (url : string) (info : bool) (msg : string) :
  framed (youtube_attempt w url info msg).
Proof. unfold youtube_attempt, logger_info. frame_steps. Qed.

Lemma framed_App_extract (url : string) :
  framed (App.extract_youtube_content w self url).
Proof.
  unfold App.extract_youtube_content, logger_warning, logger_error.
  frame_steps; apply framed_youtube_attempt.
Qed.

Lemma framed_App_load_content (url : string) :
  framed (App.load_content w self url).
Proof.
  unfold App.load_content, web_load, logger_error.
  frame_steps; apply framed_App_extract.
Qed.

Lemma framed_App_generate_summary (docs : list Document) :
  framed (App.generate_summary w self docs).
Proof. unfold App.generate_summary, run_chain, logger_error. frame_steps. Qed.

Lemma framed_Streamlit_extract (url : string) :
  framed (StreamlitApp.extract_youtube_content w self url).
Proof.
  unfold StreamlitApp.extract_youtube_content, logger_warning, logger_error.
  frame_steps; apply framed_youtube_attempt.
Qed.

Lemma framed_Streamlit_load_content (url : string) :
  framed (StreamlitApp.load_content w self url).
Proof.
  unfold StreamlitApp.load_content, web_load, logger_error.
  frame_steps; apply framed_Streamlit_extract.
Qed.

Lemma framed_Streamlit_generate_summary (docs : list Document) :
  framed (StreamlitApp.generate_summary w self docs).
Proof. unfold StreamlitApp.generate_summary, run_chain, logger_error. frame_steps. Qed.

End Summarizer.

(** ** Video transcript extraction: the two-stage fallback *)


Ltac fallback_cases w url :=
  unfold two_stage_fallback;
  attempt_cases (YoutubeLoader_load w url true ["en"]);
  attempt_cases (YoutubeLoader_load w url false ["en"]);
  simpl; repeat split; intros;
  repeat match goal with
    | H : inr _ = inr _ |- _ => injection H as <-
    | H : inl _ = inr _ |- _ => discriminate H
    | H : false = true |- _ => discriminate H
    | H : [] <> [] |- _ => now contradiction H
    end;
  try reflexivity; try (eexists; reflexivity).

Lemma App_extract_two_stage (w : Collaborators) (self : TextSummarizer)
    (url : string) :
  two_stage_fallback w url (run (App.extract_youtube_content w self url)).
Proof.
  unfold App.extract_youtube_content. py_unfold. fallback_cases w url.
Qed.

Lemma Streamlit_extract_two_stage (w : Collaborators) (self : TextSummarizer)
    (url : string) :
  two_stage_fallback w url (run (StreamlitApp.extract_youtube_content w self url)).
Proof.
  unfold StreamlitApp.extract_youtube_content. py_unfold. fallback_cases w url.
Qed.

(** In [app.py] the transcript extraction raises nothing but a 400. *)
Lemma App_extract_raises_400 (w : Collaborators) (self : TextSummarizer)
    (url : string) (t t' : trace) (e : exn) :
  App.extract_youtube_content w self url t = (inl e, t') ->
  e = HTTPException 400
        "Could not extract YouTube transcript. Please ensure the video has English subtitles available."
  \/ e = HTTPException 400 "No content could be extracted from the YouTube video".
Proof.
  unfold App.extract_youtube_content. py_unfold.
  attempt_cases (YoutubeLoader_load w url true ["en"]);
    attempt_cases (YoutubeLoader_load w url false ["en"]);
    simpl; intro H; inversion H; auto.
Qed.

(** On a video URL, [load_content] of [app.py] is the transcript extraction. *)
Lemma App_load_content_youtube (w : Collaborators) (self : TextSummarizer)
    (url : string) (t : trace) :
  is_youtube url = true ->
  App.load_content w self url t = App.extract_youtube_content w self url t.
Proof.
  intro Hy. unfold App.load_content. rewrite Hy. unfold try_except at 1.
  destruct (App.extract_youtube_content w self url t) as [[e | docs] t'] eqn:E.
  - destruct (App_extract_raises_400 _ _ _ _ _ _ E) as [-> | ->]; reflexivity.
  - reflexivity.
Qed.

(** On a video URL, [load_content] of [streamlit_app.py] makes the calls of
    the transcript extraction, passes its documents on, and replaces its
    error by the guidance message. *)
Lemma Streamlit_load_content_youtube (w : Collaborators) (self : TextSummarizer)
    (url : string) :
  is_youtube url = true ->
  fst (run (StreamlitApp.load_content w self url)) =
    match fst (run (StreamlitApp.extract_youtube_content w self url)) with
    | inr docs => inr docs
    | inl _ => inl (ValueError youtube_guidance)
    end
  /\ calls (snd (run (StreamlitApp.load_content w self url))) =
     calls (snd (run (StreamlitApp.extract_youtube_content w self url))).
Proof.
  intro Hy. unfold StreamlitApp.load_content. rewrite Hy.
  rewrite run_try_except by (intro; unfold logger_error; frame_steps).
  destruct (run (StreamlitApp.extract_youtube_content w self url)) as [[e | docs] t'].
  - simpl. rewrite calls_app. py_unfold. simpl. now rewrite app_nil_r.
  - now simpl.
Qed.

(** C1: on a video URL the extraction tries the metadata-enriched loader
    first and the transcript-only loader second, the second only when the
    first threw or came back empty; a non-empty answer is returned at once
    and an exception of the first stage only moves on to the second.  This
    holds for [extract_youtube_content] and for [load_content] of both
    front ends. *)
Theorem youtube_two_stage_fallback_order (w : Collaborators)
    (self : TextSummarizer) (url : string) :
  is_youtube url = true ->
  two_stage_fallback w url (run (App.extract_youtube_content w self url))
  /\ two_stage_fallback w url (run (App.load_content w self url))
  /\ two_stage_fallback w url (run (StreamlitApp.extract_youtube_content w self url))
  /\ two_stage_fallback w url (run (StreamlitApp.load_content w self url)).
Proof.
  intro Hy.
  pose proof (App_extract_two_stage w self url) as HA.
  pose proof (Streamlit_extract_two_stage w self url) as HS.
  split; [exact HA |]. split; [| split; [exact HS |]].
  - unfold run. rewrite App_load_content_youtube by exact Hy. exact HA.
  - destruct (Streamlit_load_content_youtube w self url Hy) as [Hr Hc].
    destruct HS as (H1 & H2 & H3).
    unfold two_stage_fallback. rewrite Hr, Hc. split; [| split].
    + intros docs Hf Hne.
      destruct (H1 docs Hf Hne) as [Hd Hk]. rewrite Hd. now split.
    + intros Hf docs Hs Hne.
      destruct (H2 Hf docs Hs Hne) as [Hd Hk]. rewrite Hd. now split.
    + intros Hf Hs.
      destruct (H3 Hf Hs) as [[e Hd] Hk]. rewrite Hd.
      split; [now eexists | exact Hk].
Qed.

(** C4, as stated, fails: when both attempts come back empty the endpoint
    answers 400 with a message that mentions neither availability nor
    captions. *)
Lemma transcript_failure_without_guidance : ~ transcript_failure_gives_guidance.
Proof.
  intro H.
  destruct (H (stub (inr []) (inr []) (inr []) (fun _ => None)
                 (fun _ => inr "Summary text"))
              a_summarizer "https://youtu.be/dQw4w9WgXcQ"
              eq_refl eq_refl eq_refl) as [detail [Hd Hg]].
  vm_compute in Hd. injection Hd as <-. vm_compute in Hg. discriminate Hg.
Qed.

(** C4: on a video URL whose two attempts both fail, the endpoint raises a
    400, but its detail is the subtitles hint (second attempt threw) or the
    no-content text (second attempt empty), and neither gives the
    public-and-captions guidance; the guidance written in [load_content]'s
    last handler is not reached.  The form, on the same input, raises that
    guidance message. *)
Theorem transcript_unavailable_is_400 (w : Collaborators)
    (self : TextSummarizer) (url : string) :
  is_youtube url = true ->
  attempt_fails (YoutubeLoader_load w url true ["en"]) = true ->
  attempt_fails (YoutubeLoader_load w url false ["en"]) = true ->
  fst (run (App.load_content w self url)) =
    inl (HTTPException 400
           match YoutubeLoader_load w url false ["en"] with
           | inl _ => could_not_extract
           | inr _ => no_youtube_content
           end)
  /\ guides_public_and_captions
       match YoutubeLoader_load w url false ["en"] with
       | inl _ => could_not_extract
       | inr _ => no_youtube_content
       end = false
  /\ fst (run (StreamlitApp.load_content w self url)) =
       inl (ValueError youtube_guidance)
  /\ guides_public_and_captions youtube_guidance = true.
Proof.
  intros Hy H1 H2. split; [| split; [| split]].
  - unfold run. rewrite App_load_content_youtube by exact Hy.
    unfold App.extract_youtube_content. py_unfold.
    attempt_cases (YoutubeLoader_load w url true ["en"]);
      attempt_cases (YoutubeLoader_load w url false ["en"]);
      simpl in *; try discriminate; reflexivity.
  - destruct (YoutubeLoader_load w url false ["en"]); reflexivity.
  - destruct (Streamlit_load_content_youtube w self url Hy) as [Hr _].
    rewrite Hr.
    destruct (Streamlit_extract_two_stage w self url) as (_ & _ & H3).
    destruct (H3 H1 H2) as [[e He] _]. now rewrite He.
  - reflexivity.
Qed.

(** ** Dispatch on the shape of the URL *)

Lemma is_youtube_spec (url : string) :
  is_youtube url = true <->
  (exists before after, url = before ++ "youtube.com" ++ after)
  \/ (exists before after, url = before ++ "youtu.be" ++ after).
Proof.
  unfold is_youtube. now rewrite orb_true_iff, !str_in_spec.
Qed.

Lemma App_load_content_web (w : Collaborators) (self : TextSummarizer)
    (url : string) :
  is_youtube url = false ->
  run (App.load_content w self url) =
  let t := [CallUnstructuredURLLoader [url] false web_headers] in
  match UnstructuredURLLoader_load w [url] false web_headers with
  | inr [] => (inl (HTTPException 400 "No content could be extracted from the URL"), t)
  | inr docs => (inr docs, t)
  | inl (HTTPException s d) => (inl (HTTPException s d), t)
  | inl e =>
      (inl (HTTPException 400 ("Failed to load content: " ++ str e)),
       (t ++ [Log ERROR ("Error loading content from URL " ++ url ++ ": " ++ str e)])%list)
  end.
Proof.
  intro Hy. unfold App.load_content, web_headers. rewrite Hy. py_unfold.
  destruct (UnstructuredURLLoader_load w [url] false [("User-Agent", USER_AGENT)])
    as [[s d | m | m] | [| d ds]]; reflexivity.
Qed.

Lemma Streamlit_load_content_web (w : Collaborators) (self : TextSummarizer)
    (url : string) :
  is_youtube url = false ->
  run (StreamlitApp.load_content w self url) =
  let t := [CallUnstructuredURLLoader [url] false web_headers] in
  let failed (cause : string) :=
    (inl (ValueError ("Failed to load content: " ++ cause)),
     (t ++ [Log ERROR ("Error loading content from URL " ++ url ++ ": " ++ cause)])%list) in
  match UnstructuredURLLoader_load w [url] false web_headers with
  | inr [] => failed "No content could be extracted from the URL"
  | inr docs => (inr docs, t)
  | inl e => failed (str e)
  end.
Proof.
  intro Hy. unfold StreamlitApp.load_content, web_headers. rewrite Hy. py_unfold.
  destruct (UnstructuredURLLoader_load w [url] false [("User-Agent", USER_AGENT)])
    as [e | [| d ds]]; reflexivity.
Qed.

(** C5: a URL is a video source exactly when it contains one of the two
    video-host patterns; a video source goes to the transcript extraction
    and to no other loader, every other URL goes to the generic web loader
    and to no other loader. *)
Theorem load_content_dispatch (w : Collaborators) (self : TextSummarizer)
    (url : string) :
  (is_youtube url = true <->
     (exists before after, url = before ++ "youtube.com" ++ after)
     \/ (exists before after, url = before ++ "youtu.be" ++ after))
  /\ (is_youtube url = true ->
      run (App.load_content w self url) =
        run (App.extract_youtube_content w self url)
      /\ fst (run (StreamlitApp.load_content w self url)) =
           match fst (run (StreamlitApp.extract_youtube_content w self url)) with
           | inr docs => inr docs
           | inl _ => inl (ValueError youtube_guidance)
           end
      /\ calls (snd (run (StreamlitApp.load_content w self url))) =
           calls (snd (run (StreamlitApp.extract_youtube_content w self url)))
      /\ Forall (fun c => exists info, c = CallYoutubeLoader url info ["en"])
           (calls (snd (run (App.extract_youtube_content w self url))))
      /\ Forall (fun c => exists info, c = CallYoutubeLoader url info ["en"])
           (calls (snd (run (StreamlitApp.extract_youtube_content w self url)))))
  /\ (is_youtube url = false ->
      calls (snd (run (App.load_content w self url))) =
        [CallUnstructuredURLLoader [url] false web_headers]
      /\ calls (snd (run (StreamlitApp.load_content w self url))) =
        [CallUnstructuredURLLoader [url] false web_headers]).
Proof.
  split; [apply is_youtube_spec |]. split.
  - intro Hy. split; [| split; [| split; [| split]]].
    + unfold run. now apply App_load_content_youtube.
    + now apply Streamlit_load_content_youtube.
    + now apply Streamlit_load_content_youtube.
    + unfold App.extract_youtube_content. py_unfold.
      attempt_cases (YoutubeLoader_load w url true ["en"]);
        attempt_cases (YoutubeLoader_load w url false ["en"]);
        simpl; repeat constructor; eexists; reflexivity.
    + unfold StreamlitApp.extract_youtube_content. py_unfold.
      attempt_cases (YoutubeLoader_load w url true ["en"]);
        attempt_cases (YoutubeLoader_load w url false ["en"]);
        simpl; repeat constructor; eexists; reflexivity.
  - intro Hy.
    rewrite App_load_content_web, Streamlit_load_content_web by exact Hy.
    destruct (UnstructuredURLLoader_load w [url] false web_headers)
      as [[s d | m | m] | [| d ds]]; split; reflexivity.
Qed.

(** C8: on a non-video URL, zero documents from the generic loader end in
    the 400 "No content could be extracted from the URL" (in the form, in a
    [ValueError] that carries the same text), and a non-empty document list
    is returned as it is. *)
Theorem web_extraction_content_not_found (w : Collaborators)
    (self : TextSummarizer) (url : string) :
  is_youtube url = false ->
  (UnstructuredURLLoader_load w [url] false web_headers = inr [] ->
     fst (run (App.load_content w self url)) =
       inl (HTTPException 400 "No content could be extracted from the URL")
     /\ fst (run (StreamlitApp.load_content w self url)) =
       inl (ValueError
              "Failed to load content: No content could be extracted from the URL"))
  /\ (forall docs,
        UnstructuredURLLoader_load w [url] false web_headers = inr docs ->
        docs <> [] ->
        fst (run (App.load_content w self url)) = inr docs
        /\ fst (run (StreamlitApp.load_content w self url)) = inr docs).
Proof.
  intro Hy.
  rewrite App_load_content_web, Streamlit_load_content_web by exact Hy.
  split.
  - intros ->. now split.
  - intros docs -> Hne. destruct docs; [contradiction | now split].
Qed.

(** ** Summary generation *)

(** C7: when the summarize chain throws, [generate_summary] raises a 500
    whose detail is "Failed to generate summary: " followed by the text of
    the cause (the form raises a [ValueError] with the same message); when
    the chain answers, its text is the summary, unchanged. *)
Theorem generate_summary_outcome (w : Collaborators) (self : TextSummarizer)
    (docs : list Document) :
  (forall e, chain_run w (llm self) "stuff" (prompt self) docs = inl e ->
     fst (run (App.generate_summary w self docs)) =
       inl (HTTPException 500 ("Failed to generate summary: " ++ str e))
     /\ fst (run (StreamlitApp.generate_summary w self docs)) =
       inl (ValueError ("Failed to generate summary: " ++ str e))
     /\ str_in (str e) ("Failed to generate summary: " ++ str e) = true)
  /\ (forall text, chain_run w (llm self) "stuff" (prompt self) docs = inr text ->
     fst (run (App.generate_summary w self docs)) = inr text
     /\ fst (run (StreamlitApp.generate_summary w self docs)) = inr text).
Proof.
  unfold App.generate_summary, StreamlitApp.generate_summary. py_unfold.
  split.
  - intros e ->. split; [reflexivity | split; [reflexivity | apply str_in_append]].
  - intros text ->. now split.
Qed.

(** ** The endpoint, step by step *)

Ltac endpoint_leaf :=
  unfold at_endpoint, at_form; py_unfold; simpl;
  rewrite <- ?app_assoc, ?app_nil_r; simpl; reflexivity.

(** A request that passes validation: the outcome in terms of what the
    constructor, [load_content] and [generate_summary] do. *)
Lemma App_summarize_run (w : Collaborators) (req : SummarizationRequest) :
  let key := strip (get_secret_value (groq_api_key req)) in
  let u := strip (url req) in
  key <> "" -> u <> "" -> validators_url w u = true ->
  run (App.summarize w req) =
    let init := CallChatGroq GEMMA_MODEL key in
    match ChatGroq_init w GEMMA_MODEL key with
    | Some e => (inl (fst (at_endpoint e)), init :: snd (at_endpoint e))
    | None =>
        match run (App.load_content w (summarizer_for key) u) with
        | (inl e, t1) =>
            (inl (fst (at_endpoint e)), init :: t1 ++ snd (at_endpoint e))%list
        | (inr docs, t1) =>
            match run (App.generate_summary w (summarizer_for key) docs) with
            | (inl e, t2) =>
                (inl (fst (at_endpoint e)),
                 init :: t1 ++ t2 ++ snd (at_endpoint e))%list
            | (inr summary, t2) =>
                (inr [("summary", summary)], init :: t1 ++ t2)%list
            end
        end
    end.
Proof.
  intros key u Hk Hu Hv. unfold App.summarize. fold key u.
  apply truthy_str_true in Hk, Hu. rewrite Hk, Hu, Hv. simpl negb. cbv iota.
  unfold run, try_except at 1, bind at 1, TextSummarizer_init, bind at 1, call, ret at 1.
  simpl app.
  destruct (ChatGroq_init w GEMMA_MODEL key) as [e |].
  - destruct e; reflexivity.
  - fold (summarizer_for key). unfold bind at 1.
    rewrite (framed_App_load_content w (summarizer_for key) u [CallChatGroq GEMMA_MODEL key]).
    destruct (App.load_content w (summarizer_for key) u []) as [[e | docs] t1]; simpl fst; simpl snd.
    + destruct e; endpoint_leaf.
    + unfold bind at 1.
      rewrite (framed_App_generate_summary w (summarizer_for key) docs
                 ([CallChatGroq GEMMA_MODEL key] ++ t1)%list).
      destruct (App.generate_summary w (summarizer_for key) docs []) as [[e | s] t2];
        simpl fst; simpl snd.
      * destruct e; endpoint_leaf.
      * endpoint_leaf.
Qed.

(** The same for the form, whose outcome is what it shows. *)
Lemma Streamlit_main_run (w : Collaborators) (api_key u : string) :
  strip api_key <> "" -> strip u <> "" -> validators_url w u = true ->
  run (StreamlitApp.main w api_key u) =
    let init := CallChatGroq GEMMA_MODEL api_key in
    match ChatGroq_init w GEMMA_MODEL api_key with
    | Some e => (inr tt, init :: at_form e)
    | None =>
        match run (StreamlitApp.load_content w (summarizer_for api_key) u) with
        | (inl e, t1) => (inr tt, init :: t1 ++ at_form e)%list
        | (inr docs, t1) =>
            match run (StreamlitApp.generate_summary w (summarizer_for api_key) docs) with
            | (inl e, t2) => (inr tt, init :: t1 ++ t2 ++ at_form e)%list
            | (inr summary, t2) =>
                (inr tt,
                 init :: t1 ++ t2 ++
                 [StSuccess summary; Log INFO "Successfully generated summary"])%list
            end
        end
    end.
Proof.
  intros Hk Hu Hv. unfold StreamlitApp.main.
  apply truthy_str_true in Hk, Hu. rewrite Hk, Hu, Hv. simpl negb. simpl orb. cbv iota.
  unfold run, try_except at 1, bind at 1, TextSummarizer_init, bind at 1, call, ret at 1.
  simpl app.
  destruct (ChatGroq_init w GEMMA_MODEL api_key) as [e |].
  - destruct e; reflexivity.
  - fold (summarizer_for api_key). unfold bind at 1.
    rewrite (framed_Streamlit_load_content w (summarizer_for api_key) u
               [CallChatGroq GEMMA_MODEL api_key]).
    destruct (StreamlitApp.load_content w (summarizer_for api_key) u [])
      as [[e | docs] t1]; simpl fst; simpl snd.
    + destruct e; endpoint_leaf.
    + unfold bind at 1.
      rewrite (framed_Streamlit_generate_summary w (summarizer_for api_key) docs
                 ([CallChatGroq GEMMA_MODEL api_key] ++ t1)%list).
      destruct (StreamlitApp.generate_summary w (summarizer_for api_key) docs [])
        as [[e | s] t2]; simpl fst; simpl snd.
      * destruct e; endpoint_leaf.
      * endpoint_leaf.
Qed.



(** ** Input validation *)

Lemma App_summarize_invalid (w : Collaborators) (req : SummarizationRequest) :
  strip (get_secret_value (groq_api_key req)) = ""
  \/ strip (url req) = ""
  \/ validators_url w (strip (url req)) = false ->
  exists detail,
    In detail ["API Key is required"; "URL is required"; "Invalid URL provided"]
    /\ run (App.summarize w req) = (inl (HTTPException 400 detail), []).
Proof.
  intro H. unfold App.summarize, run, raise.
  destruct (truthy_str (strip (get_secret_value (groq_api_key req)))) eqn:Hk;
    [| eexists; split; [| reflexivity]; simpl; auto].
  destruct (truthy_str (strip (url req))) eqn:Hu;
    [| eexists; split; [| reflexivity]; simpl; auto].
  destruct (validators_url w (strip (url req))) eqn:Hv;
    [| eexists; split; [| reflexivity]; simpl; auto].
  apply truthy_str_true in Hk, Hu. destruct H as [H | [H | H]]; congruence.
Qed.

Lemma Streamlit_main_invalid (w : Collaborators) (api_key u : string) :
  strip api_key = "" \/ strip u = "" \/ validators_url w u = false ->
  exists msg,
    In msg ["Please provide both API key and URL to get started";
            "Please enter a valid URL (YouTube video or website)"]
    /\ run (StreamlitApp.main w api_key u) = (inr tt, [StError msg]).
Proof.
  intro H. unfold StreamlitApp.main. py_unfold.
  destruct (truthy_str (strip api_key)) eqn:Hk;
    [| eexists; split; [| reflexivity]; simpl; auto].
  destruct (truthy_str (strip u)) eqn:Hu;
    [| eexists; split; [| reflexivity]; simpl; auto].
  destruct (validators_url w u) eqn:Hv;
    [| eexists; split; [| reflexivity]; simpl; auto].
  apply truthy_str_true in Hk, Hu. destruct H as [H | [H | H]]; congruence.
Qed.

(** C3: a request whose credential or URL is empty after trimming, or whose
    URL fails the well-formedness check, is rejected with a 400 (in the
    form, with an inline error) and the run leaves an empty record of
    collaborator calls: neither a loader nor the language model was
    invoked. *)
Theorem invalid_input_rejected_before_any_call (w : Collaborators)
    (credential u : string) :
  (strip credential = "" \/ strip u = ""
   \/ validators_url w (strip u) = false ->
   (exists detail,
      fst (run (App.summarize w (request credential u))) =
        inl (HTTPException 400 detail))
   /\ snd (run (App.summarize w (request credential u))) = [])
  /\ (strip credential = "" \/ strip u = "" \/ validators_url w u = false ->
      (exists msg,
         run (StreamlitApp.main w credential u) = (inr tt, [StError msg]))
      /\ calls (snd (run (StreamlitApp.main w credential u))) = []).
Proof.
  split; intro H.
  - destruct (App_summarize_invalid w (request credential u) H) as [d [_ Hr]].
    rewrite Hr. split; [now exists d | reflexivity].
  - destruct (Streamlit_main_invalid w credential u H) as [m [_ Hr]].
    rewrite Hr. split; [now exists m | reflexivity].
Qed.

(** Which inputs a front end delegates on. *)
Lemma App_delegates_spec (w : Collaborators) (credential u : string) :
  delegates (snd (run (App.summarize w (request credential u)))) =
  truthy_str (strip credential) && truthy_str (strip u)
  && validators_url w (strip u).
Proof.
  destruct (truthy_str (strip credential)) eqn:Hk;
    [destruct (truthy_str (strip u)) eqn:Hu;
       [destruct (validators_url w (strip u)) eqn:Hv |] |].
  - apply truthy_str_true in Hk, Hu.
    rewrite App_summarize_run by assumption. cbv zeta.
    destruct (ChatGroq_init w GEMMA_MODEL _); [reflexivity |].
    destruct (run (App.load_content w _ _)) as [[e | docs] t1]; [reflexivity |].
    destruct (run (App.generate_summary w _ _)) as [[e | s] t2]; reflexivity.
  - unfold App.summarize. simpl get_secret_value. simpl url. now rewrite Hk, Hu, Hv.
  - unfold App.summarize. simpl get_secret_value. simpl url. now rewrite Hk, Hu.
  - unfold App.summarize. simpl get_secret_value. now rewrite Hk.
Qed.

Lemma Streamlit_delegates_spec (w : Collaborators) (credential u : string) :
  delegates (snd (run (StreamlitApp.main w credential u))) =
  truthy_str (strip credential) && truthy_str (strip u) && validators_url w u.
Proof.
  destruct (truthy_str (strip credential)) eqn:Hk;
    [destruct (truthy_str (strip u)) eqn:Hu;
       [destruct (validators_url w u) eqn:Hv |] |].
  - apply truthy_str_true in Hk, Hu.
    rewrite Streamlit_main_run by assumption. cbv zeta.
    destruct (ChatGroq_init w GEMMA_MODEL _); [reflexivity |].
    destruct (run (StreamlitApp.load_content w _ _)) as [[e | docs] t1];
      [reflexivity |].
    destruct (run (StreamlitApp.generate_summary w _ _)) as [[e | s] t2];
      reflexivity.
  - unfold StreamlitApp.main. now rewrite Hk, Hu, Hv.
  - unfold StreamlitApp.main. now rewrite Hk, Hu.
  - unfold StreamlitApp.main. now rewrite Hk.
Qed.

(** On a URL without surrounding white space the two front ends decide
    alike. *)
Lemma front_ends_agree_on_trimmed_url (w : Collaborators) (credential u : string) :
  strip u = u ->
  delegates (snd (run (App.summarize w (request credential u)))) =
  delegates (snd (run (StreamlitApp.main w credential u))).
Proof.
  intro Hs. rewrite App_delegates_spec, Streamlit_delegates_spec. now rewrite Hs.
Qed.

(** C2: the two front ends do not reach the same decision on a URL with
    surrounding white space.  The endpoint validates the trimmed URL, the
    form validates the URL as typed: whenever the validator accepts the
    first and refuses the second, the endpoint delegates to the summarizer
    and the form rejects with its invalid-URL message. *)
Theorem front_ends_disagree_on_padded_url (w : Collaborators)
    (credential u : string) :
  strip credential <> "" ->
  validators_url w (strip u) = true ->
  validators_url w u = false ->
  delegates (snd (run (App.summarize w (request credential u)))) =
    truthy_str (strip u)
  /\ delegates (snd (run (StreamlitApp.main w credential u))) = false
  /\ (strip u <> "" ->
      run (StreamlitApp.main w credential u) =
        (inr tt, [StError "Please enter a valid URL (YouTube video or website)"])).
Proof.
  intros Hk Hv Hraw. apply truthy_str_true in Hk.
  rewrite App_delegates_spec, Streamlit_delegates_spec, Hk, Hv, Hraw.
  split; [now rewrite andb_true_r | split; [now rewrite andb_false_r |]].
  intro Hu. apply truthy_str_true in Hu.
  unfold StreamlitApp.main. rewrite Hk, Hu, Hraw. reflexivity.
Qed.

(** ** Error taxonomy at the endpoint *)


(** C10, as stated, fails on the form: a [ValueError] thrown by the Groq
    client's constructor is shown on the page as it is and is not logged;
    it is not treated as unexpected. *)
Lemma form_shows_constructor_value_error : ~ form_constructor_failure_is_unexpected.
Proof.
  intro H.
  assert (Hk : strip "sk-wrong" <> "") by (vm_compute; discriminate).
  assert (Hu : strip "https://example.com" <> "") by (vm_compute; discriminate).
  destruct (H strict_client_world "sk-wrong" "https://example.com"
              (ValueError "groq_api_key: malformed key") Hk Hu eq_refl eq_refl)
    as [_ Hm].
  vm_compute in Hm. discriminate Hm.
Qed.

(** C10, amended: a credential that is non-empty after trimming is handed
    to the Groq client whatever it is worth.  When the client's constructor
    then throws, the endpoint has made that one call, logs the exception,
    and answers 500 with the wrapper "An unexpected error occurred: ..." --
    not a 400.  The form has made that one call too; it logs an exception
    that is not a [ValueError] and shows the fixed apology, and it shows
    the text of a [ValueError] as it is, unlogged. *)
Theorem constructor_failure_by_front_end (w : Collaborators)
    (credential u : string) (e : exn) :
  strip credential <> "" ->
  strip u <> "" ->
  (validators_url w (strip u) = true ->
   ChatGroq_init w GEMMA_MODEL (strip credential) = Some e ->
   is_HTTPException e = false ->
   run (App.summarize w (request credential u)) =
     (inl (HTTPException 500 ("An unexpected error occurred: " ++ str e)),
      [CallChatGroq GEMMA_MODEL (strip credential);
       LogException "Unexpected error occurred" e]))
  /\ (validators_url w u = true ->
      ChatGroq_init w GEMMA_MODEL credential = Some e ->
      run (StreamlitApp.main w credential u) =
        (inr tt,
         CallChatGroq GEMMA_MODEL credential ::
         match e with
         | ValueError m => [StError m]
         | _ => [LogException "Unexpected error occurred" e; StError apology]
         end)).
Proof.
  intros Hk Hu. split.
  - intros Hv Hinit He.
    rewrite (App_summarize_run w (request credential u) Hk Hu Hv).
    simpl get_secret_value. cbv zeta. rewrite Hinit.
    destruct e; [discriminate He | reflexivity | reflexivity].
  - intros Hv Hinit.
    rewrite (Streamlit_main_run w credential u Hk Hu Hv). cbv zeta.
    rewrite Hinit. destruct e; reflexivity.
Qed.

(** In the form the same failure is shown inline: the text of a
    [ValueError] as it is, the fixed apology for anything else. *)
Lemma Streamlit_constructor_failure (w : Collaborators)
    (api_key u : string) (e : exn) :
  strip api_key <> "" ->
  strip u <> "" ->
  validators_url w u = true ->
  ChatGroq_init w GEMMA_MODEL api_key = Some e ->
  run (StreamlitApp.main w api_key u) =
    (inr tt, CallChatGroq GEMMA_MODEL api_key :: at_form e).
Proof.
  intros Hk Hu Hv Hinit.
  rewrite (Streamlit_main_run w api_key u Hk Hu Hv). cbv zeta. now rewrite Hinit.
Qed.

(** ** The credential *)

Lemma App_load_content_ignores_self (w : Collaborators)
    (self1 self2 : TextSummarizer) (u : string) :
  App.load_content w self1 u = App.load_content w self2 u.
Proof. reflexivity. Qed.

(** C9, as stated, fails: with a service that has revoked one key, two
    requests that differ only in the credential surface different errors
    and write different logs. *)
Lemma credential_changes_error_detail : ~ credential_never_shows.
Proof.
  intro H.
  destruct (H revoked_key_world "gsk_live" "gsk_revoked" "https://example.com")
    as [He _].
  vm_compute in He. discriminate He.
Qed.

(** Already the presence check tells two credentials apart. *)
Example blank_credential_changes_error_detail :
  surfaced_error (run (App.summarize happy_world (request "  " "https://example.com")))
  = Some (HTTPException 400 "API Key is required")
  /\ surfaced_error
       (run (App.summarize happy_world (request "gsk_live" "https://example.com")))
     = None.
Proof. split; reflexivity. Qed.

(** C9, amended: the credential reaches the Summary Generator and nothing
    else.  For two credentials that are both non-empty after trimming and
    that the generator treats alike (its constructor and its chain answer
    the same for both), the two runs of the endpoint have the same outcome,
    the same log, and the same events outside the generator. *)
Theorem credential_only_reaches_generator (w : Collaborators)
    (credential1 credential2 u : string) :
  strip credential1 <> "" ->
  strip credential2 <> "" ->
  ChatGroq_init w GEMMA_MODEL (strip credential1) =
    ChatGroq_init w GEMMA_MODEL (strip credential2) ->
  (forall docs,
     chain_run w (mkChatGroq GEMMA_MODEL (strip credential1)) "stuff"
       (mkPromptTemplate summary_template ["text"]) docs =
     chain_run w (mkChatGroq GEMMA_MODEL (strip credential2)) "stuff"
       (mkPromptTemplate summary_template ["text"]) docs) ->
  fst (run (App.summarize w (request credential1 u))) =
    fst (run (App.summarize w (request credential2 u)))
  /\ logs (snd (run (App.summarize w (request credential1 u)))) =
     logs (snd (run (App.summarize w (request credential2 u))))
  /\ outside_generator (snd (run (App.summarize w (request credential1 u)))) =
     outside_generator (snd (run (App.summarize w (request credential2 u)))).
Proof.
  intros Hk1 Hk2 Hinit Hchain.
  destruct (truthy_str (strip u)) eqn:Hu;
    [destruct (validators_url w (strip u)) eqn:Hv |].
  - apply truthy_str_true in Hu.
    rewrite (App_summarize_run w (request credential1 u) Hk1 Hu Hv).
    rewrite (App_summarize_run w (request credential2 u) Hk2 Hu Hv).
    simpl get_secret_value. simpl url. cbv zeta. rewrite Hinit.
    destruct (ChatGroq_init w GEMMA_MODEL (strip credential2)) as [e |].
    { repeat split. }
    rewrite (App_load_content_ignores_self w
               (summarizer_for (strip credential1))
               (summarizer_for (strip credential2))).
    destruct (run (App.load_content w (summarizer_for (strip credential2)) (strip u)))
      as [[e | docs] t1].
    { unfold logs, outside_generator. simpl. repeat split. }
    unfold App.generate_summary. py_unfold. simpl. rewrite Hchain.
    destruct (chain_run w (mkChatGroq GEMMA_MODEL (strip credential2)) "stuff"
                (mkPromptTemplate summary_template ["text"]) docs) as [e | s];
      unfold logs, outside_generator; simpl; rewrite !filter_app; simpl;
      repeat split.
  - apply truthy_str_true in Hk1, Hk2.
    unfold App.summarize. simpl get_secret_value. simpl url.
    rewrite Hk1, Hk2, Hu, Hv. repeat split.
  - apply truthy_str_true in Hk1, Hk2.
    unfold App.summarize. simpl get_secret_value. simpl url.
    rewrite Hk1, Hk2, Hu. repeat split.
Qed.

(** ** Concrete runs *)

Example summarize_happy_path :
  fst (run (App.summarize happy_world (request "gsk_live" "https://example.com")))
  = inr [("summary", "Summary text")].
Proof. reflexivity. Qed.

Example health_check_is_healthy :
  run App.health_check = (inr [("status", "healthy")], []).
Proof. reflexivity. Qed.

Lemma third_party_stub (yt1 yt2 : exn + list Document) (docs : list Document)
    (init : string -> option exn) (chain : ChatGroq -> exn + string) :
  (forall key e, init key = Some e -> is_HTTPException e = false) ->
  third_party (stub yt1 yt2 (inr docs) init chain).
Proof.
  intro Hinit. split; simpl.
  - intros _ _ _ e H. discriminate H.
  - intros _ key e H. now apply (Hinit key).
Qed.

(** ** The theorems at concrete inputs *)

(** The metadata attempt throws, the transcript-only attempt has one
    document: [load_content] returns it after the two calls, in order. *)
Lemma youtube_two_stage_fallback_order_witness :
  is_youtube "https://youtu.be/dQw4w9WgXcQ" = true
  /\ fst (run (App.load_content happy_world a_summarizer
                 "https://youtu.be/dQw4w9WgXcQ")) = inr [transcript]
  /\ calls (snd (run (App.load_content happy_world a_summarizer
                        "https://youtu.be/dQw4w9WgXcQ"))) =
     [CallYoutubeLoader "https://youtu.be/dQw4w9WgXcQ" true ["en"];
      CallYoutubeLoader "https://youtu.be/dQw4w9WgXcQ" false ["en"]].
Proof.
  split; [reflexivity |].
  destruct (youtube_two_stage_fallback_order happy_world a_summarizer
              "https://youtu.be/dQw4w9WgXcQ" eq_refl)
    as (_ & (_ & H & _) & _).
  apply (H eq_refl [transcript] eq_refl). discriminate.
Defined.

Lemma front_ends_disagree_on_padded_url_witness :
  strip "gsk_live" <> ""
  /\ validators_url happy_world (strip " https://example.com") = true
  /\ validators_url happy_world " https://example.com" = false
  /\ delegates (snd (run (App.summarize happy_world
                            (request "gsk_live" " https://example.com")))) = true
  /\ delegates (snd (run (StreamlitApp.main happy_world
                            "gsk_live" " https://example.com"))) = false.
Proof.
  assert (Hk : strip "gsk_live" <> "") by (vm_compute; discriminate).
  split; [exact Hk |]. split; [reflexivity |]. split; [reflexivity |].
  destruct (front_ends_disagree_on_padded_url happy_world "gsk_live"
              " https://example.com" Hk eq_refl eq_refl) as (H1 & H2 & _).
  split; [exact H1 | exact H2].
Defined.

Lemma invalid_input_rejected_before_any_call_witness :
  strip "   " = ""
  /\ snd (run (App.summarize happy_world (request "   " "not a url"))) = []
  /\ validators_url happy_world "not a url" = false
  /\ calls (snd (run (StreamlitApp.main happy_world "   " "not a url"))) = [].
Proof.
  destruct (invalid_input_rejected_before_any_call happy_world "   " "not a url")
    as [HA HS].
  split; [reflexivity |]. split; [apply HA; left; reflexivity |].
  split; [reflexivity |]. apply HS. right; right. reflexivity.
Defined.

Lemma transcript_unavailable_is_400_witness :
  fst (run (App.load_content empty_world a_summarizer
              "https://www.youtube.com/watch?v=dQw4w9WgXcQ")) =
    inl (HTTPException 400 no_youtube_content)
  /\ guides_public_and_captions no_youtube_content = false
  /\ fst (run (StreamlitApp.load_content empty_world a_summarizer
                 "https://www.youtube.com/watch?v=dQw4w9WgXcQ")) =
    inl (ValueError youtube_guidance).
Proof.
  destruct (transcript_unavailable_is_400 empty_world a_summarizer
              "https://www.youtube.com/watch?v=dQw4w9WgXcQ"
              eq_refl eq_refl eq_refl) as (H1 & H2 & H3 & _).
  split; [exact H1 | split; [exact H2 | exact H3]].
Defined.

Lemma load_content_dispatch_witness :
  is_youtube "https://youtu.be/dQw4w9WgXcQ" = true
  /\ run (App.load_content happy_world a_summarizer "https://youtu.be/dQw4w9WgXcQ") =
     run (App.extract_youtube_content happy_world a_summarizer
            "https://youtu.be/dQw4w9WgXcQ")
  /\ is_youtube "https://example.com" = false
  /\ calls (snd (run (App.load_content happy_world a_summarizer
                        "https://example.com"))) =
     [CallUnstructuredURLLoader ["https://example.com"] false web_headers].
Proof.
  split; [reflexivity |]. split.
  - destruct (load_content_dispatch happy_world a_summarizer
                "https://youtu.be/dQw4w9WgXcQ") as (_ & H & _).
    apply (H eq_refl).
  - split; [reflexivity |].
    destruct (load_content_dispatch happy_world a_summarizer
                "https://example.com") as (_ & _ & H).
    apply (H eq_refl).
Defined.


Lemma generate_summary_outcome_witness :
  fst (run (App.generate_summary revoked_key_world
              (summarizer_for "gsk_revoked") [page])) =
    inl (HTTPException 500
           "Failed to generate summary: Error code: 401 - Invalid API Key")
  /\ fst (run (App.generate_summary revoked_key_world
                 (summarizer_for "gsk_live") [page])) = inr "Summary text".
Proof.
  split.
  - destruct (generate_summary_outcome revoked_key_world
                (summarizer_for "gsk_revoked") [page]) as [H _].
    apply (H (OtherException "Error code: 401 - Invalid API Key") eq_refl).
  - destruct (generate_summary_outcome revoked_key_world
                (summarizer_for "gsk_live") [page]) as [_ H].
    apply (H "Summary text" eq_refl).
Defined.

Lemma web_extraction_content_not_found_witness :
  is_youtube "https://example.com" = false
  /\ fst (run (App.load_content empty_world a_summarizer "https://example.com")) =
     inl (HTTPException 400 "No content could be extracted from the URL")
  /\ fst (run (App.load_content happy_world a_summarizer "https://example.com")) =
     inr [page].
Proof.
  split; [reflexivity |]. split.
  - destruct (web_extraction_content_not_found empty_world a_summarizer
                "https://example.com" eq_refl) as [H _].
    apply (H eq_refl).
  - destruct (web_extraction_content_not_found happy_world a_summarizer
                "https://example.com" eq_refl) as [_ H].
    apply (H [page] eq_refl). discriminate.
Defined.

Lemma credential_only_reaches_generator_witness :
  strip "gsk_live" <> "" /\ strip " gsk_other " <> ""
  /\ fst (run (App.summarize happy_world
                 (request "gsk_live" "https://youtu.be/dQw4w9WgXcQ"))) =
     fst (run (App.summarize happy_world
                 (request " gsk_other " "https://youtu.be/dQw4w9WgXcQ")))
  /\ logs (snd (run (App.summarize happy_world
                       (request "gsk_live" "https://youtu.be/dQw4w9WgXcQ")))) =
     logs (snd (run (App.summarize happy_world
                       (request " gsk_other " "https://youtu.be/dQw4w9WgXcQ")))).
Proof.
  assert (H1 : strip "gsk_live" <> "") by (vm_compute; discriminate).
  assert (H2 : strip " gsk_other " <> "") by (vm_compute; discriminate).
  split; [exact H1 |]. split; [exact H2 |].
  destruct (credential_only_reaches_generator happy_world "gsk_live" " gsk_other "
              "https://youtu.be/dQw4w9WgXcQ" H1 H2 eq_refl
              (fun docs => eq_refl)) as (Ha & Hb & _).
  split; [exact Ha | exact Hb].
Defined.

Lemma constructor_failure_by_front_end_witness :
  strip "sk-wrong" <> "" /\ strip "https://example.com" <> ""
  /\ ChatGroq_init strict_client_world GEMMA_MODEL "sk-wrong" =
     Some (ValueError "groq_api_key: malformed key")
  /\ run (App.summarize strict_client_world
            (request "sk-wrong" "https://example.com")) =
     (inl (HTTPException 500
             "An unexpected error occurred: groq_api_key: malformed key"),
      [CallChatGroq GEMMA_MODEL "sk-wrong";
       LogException "Unexpected error occurred"
         (ValueError "groq_api_key: malformed key")])
  /\ run (StreamlitApp.main strict_client_world "sk-wrong" "https://example.com") =
     (inr tt,
      [CallChatGroq GEMMA_MODEL "sk-wrong";
       StError "groq_api_key: malformed key"]).
Proof.
  assert (Hk : strip "sk-wrong" <> "") by (vm_compute; discriminate).
  assert (Hu : strip "https://example.com" <> "") by (vm_compute; discriminate).
  split; [exact Hk |]. split; [exact Hu |]. split; [reflexivity |].
  destruct (constructor_failure_by_front_end strict_client_world
              "sk-wrong" "https://example.com"
              (ValueError "groq_api_key: malformed key") Hk Hu) as [HA HF].
  split; [apply (HA eq_refl eq_refl eq_refl) | apply (HF eq_refl eq_refl)].
Defined.

(** * Further properties of the two files *)

(** ** Trimming *)

Lemma all_space_lstrip (s : string) : all_space (lstrip s) = all_space s.
Proof.
  induction s as [|c s IH]; simpl; [reflexivity |].
  destruct (isspace c) eqn:Hc; simpl; [exact IH | now rewrite Hc].
Qed.

Lemma rstrip_empty (s : string) : rstrip s = "" <-> all_space s = true.
Proof.
  induction s as [|c s IH]; simpl; [now split |].
  destruct (rstrip s) as [|a r] eqn:E.
  - destruct (isspace c); simpl.
    + split; [intros _; now apply IH | reflexivity].
    + split; discriminate.
  - split; [discriminate |].
    rewrite andb_true_iff. intros [_ H]. apply IH in H. discriminate H.
Qed.

Lemma strip_empty (s : string) : strip s = "" <-> all_space s = true.
Proof. unfold strip. now rewrite rstrip_empty, all_space_lstrip. Qed.

Lemma rstrip_idempotent (s : string) : rstrip (rstrip s) = rstrip s.
Proof.
  induction s as [|c s IH]; simpl; [reflexivity |].
  destruct (rstrip s) as [|a r] eqn:E.
  - destruct (isspace c) eqn:Hc; simpl; [reflexivity | now rewrite Hc].
  - simpl in *. now rewrite IH.
Qed.

(** A stripped string keeps its first character. *)
Lemma rstrip_head (c : ascii) (s : string) :
  rstrip (String c s) = "" \/ exists r, rstrip (String c s) = String c r.
Proof.
  simpl. destruct (rstrip s) as [|a r].
  - destruct (isspace c); [now left | right; now exists ""].
  - right. now eexists.
Qed.

Lemma lstrip_head (s : string) :
  lstrip s = "" \/ exists c r, lstrip s = String c r /\ isspace c = false.
Proof.
  induction s as [|c s IH]; simpl; [now left |].
  destruct (isspace c) eqn:Hc; [exact IH | right; now exists c, s].
Qed.

Lemma lstrip_strip (s : string) : lstrip (strip s) = strip s.
Proof.
  unfold strip. destruct (lstrip_head s) as [-> | (c & r & -> & Hc)];
    [reflexivity |].
  destruct (rstrip_head c r) as [-> | [r' ->]]; [reflexivity |].
  simpl. now rewrite Hc.
Qed.

Lemma strip_idempotent (s : string) : strip (strip s) = strip s.
Proof.
  unfold strip at 1. rewrite lstrip_strip. unfold strip. apply rstrip_idempotent.
Qed.

(** X1: the endpoint cannot tell a request from the same request with its
    credential and URL already trimmed: outcome and trace are the same. *)
Theorem endpoint_ignores_surrounding_space (w : Collaborators)
    (credential u : string) :
  run (App.summarize w (request credential u)) =
  run (App.summarize w (request (strip credential) (strip u))).
Proof.
  unfold App.summarize. simpl get_secret_value. simpl url.
  now rewrite !strip_idempotent.
Qed.

(** X2: the presence checks go by priority.  A credential made of white
    space only is refused with "API Key is required" whatever the URL is;
    with a credential present, a URL made of white space only is refused
    with "URL is required".  The form answers both cases with its one
    "provide both" message.  Nothing is called or logged in either. *)
Theorem blank_inputs_by_priority (w : Collaborators) (credential u : string) :
  (all_space credential = true ->
     run (App.summarize w (request credential u)) =
       (inl (HTTPException 400 "API Key is required"), [])
     /\ run (StreamlitApp.main w credential u) =
       (inr tt, [StError "Please provide both API key and URL to get started"]))
  /\ (all_space credential = false -> all_space u = true ->
     run (App.summarize w (request credential u)) =
       (inl (HTTPException 400 "URL is required"), [])
     /\ run (StreamlitApp.main w credential u) =
       (inr tt, [StError "Please provide both API key and URL to get started"])).
Proof.
  split.
  - intro Hc. apply strip_empty in Hc.
    unfold App.summarize, StreamlitApp.main. simpl get_secret_value.
    rewrite Hc. split; reflexivity.
  - intros Hc Hu. apply strip_empty in Hu.
    assert (Hk : truthy_str (strip credential) = true).
    { apply truthy_str_true. intro H. apply strip_empty in H. congruence. }
    unfold App.summarize, StreamlitApp.main. simpl get_secret_value. simpl url.
    rewrite Hk, Hu. split; reflexivity.
Qed.

(** ** Content loading *)

Lemma App_extract_nonempty (w : Collaborators) (self : TextSummarizer)
    (u : string) (docs : list Document) :
  fst (run (App.extract_youtube_content w self u)) = inr docs -> docs <> [].
Proof.
  unfold App.extract_youtube_content. py_unfold.
  attempt_cases (YoutubeLoader_load w u true ["en"]);
    attempt_cases (YoutubeLoader_load w u false ["en"]);
    simpl; intro H; inversion H; discriminate.
Qed.

Lemma Streamlit_extract_nonempty (w : Collaborators) (self : TextSummarizer)
    (u : string) (docs : list Document) :
  fst (run (StreamlitApp.extract_youtube_content w self u)) = inr docs -> docs <> [].
Proof.
  unfold StreamlitApp.extract_youtube_content. py_unfold.
  attempt_cases (YoutubeLoader_load w u true ["en"]);
    attempt_cases (YoutubeLoader_load w u false ["en"]);
    simpl; intro H; inversion H; discriminate.
Qed.

Lemma App_load_content_nonempty (w : Collaborators) (self : TextSummarizer)
    (u : string) (docs : list Document) :
  fst (run (App.load_content w self u)) = inr docs -> docs <> [].
Proof.
  destruct (is_youtube u) eqn:Hy.
  - unfold run. rewrite App_load_content_youtube by exact Hy.
    apply (App_extract_nonempty w self u docs).
  - rewrite App_load_content_web by exact Hy. cbv zeta.
    destruct (UnstructuredURLLoader_load w [u] false web_headers)
      as [[s d | m | m] | [| d ds]]; simpl; intro H; inversion H; discriminate.
Qed.

Lemma Streamlit_load_content_nonempty (w : Collaborators)
    (self : TextSummarizer) (u : string) (docs : list Document) :
  fst (run (StreamlitApp.load_content w self u)) = inr docs -> docs <> [].
Proof.
  destruct (is_youtube u) eqn:Hy.
  - destruct (Streamlit_load_content_youtube w self u Hy) as [Hr _]. rewrite Hr.
    destruct (fst (run (StreamlitApp.extract_youtube_content w self u)))
      as [e | ds] eqn:E; [discriminate |].
    intro H. injection H as <-. now apply (Streamlit_extract_nonempty w self u).
  - rewrite Streamlit_load_content_web by exact Hy. cbv zeta.
    destruct (UnstructuredURLLoader_load w [u] false web_headers)
      as [e | [| d ds]]; simpl; intro H; inversion H; discriminate.
Qed.

(** X3: [load_content] never hands back an empty document list: in both
    files a successful load has at least one document. *)
Theorem load_content_never_empty (w : Collaborators) (self : TextSummarizer)
    (u : string) (docs : list Document) :
  (fst (run (App.load_content w self u)) = inr docs -> docs <> [])
  /\ (fst (run (StreamlitApp.load_content w self u)) = inr docs -> docs <> []).
Proof.
  split; [apply App_load_content_nonempty | apply Streamlit_load_content_nonempty].
Qed.

(** X4: on a non-video URL, an exception of the generic loader becomes a 400
    "Failed to load content: ..." that carries the text of the cause, after
    one error record in the log; the form raises a [ValueError] with the same
    message and the same log record. *)
Theorem web_loader_exception_is_reported (w : Collaborators)
    (self : TextSummarizer) (u : string) (e : exn) :
  is_youtube u = false ->
  UnstructuredURLLoader_load w [u] false web_headers = inl e ->
  is_HTTPException e = false ->
  let t := [CallUnstructuredURLLoader [u] false web_headers;
            Log ERROR ("Error loading content from URL " ++ u ++ ": " ++ str e)] in
  run (App.load_content w self u) =
    (inl (HTTPException 400 ("Failed to load content: " ++ str e)), t)
  /\ run (StreamlitApp.load_content w self u) =
    (inl (ValueError ("Failed to load content: " ++ str e)), t)
  /\ str_in (str e) ("Failed to load content: " ++ str e) = true.
Proof.
  intros Hy Hl He t.
  rewrite App_load_content_web, Streamlit_load_content_web by exact Hy.
  rewrite Hl. split; [| split].
  - destruct e; [discriminate He | reflexivity | reflexivity].
  - reflexivity.
  - apply str_in_append.
Qed.

(** The loaders never run the summarize chain. *)
Lemma App_load_content_calls (w : Collaborators) (self : TextSummarizer)
    (u : string) :
  chain_calls (snd (run (App.load_content w self u))) = []
  /\ List.length (calls (snd (run (App.load_content w self u)))) <= 2.
Proof.
  destruct (is_youtube u) eqn:Hy.
  - unfold run. rewrite App_load_content_youtube by exact Hy.
    unfold App.extract_youtube_content. py_unfold.
    attempt_cases (YoutubeLoader_load w u true ["en"]);
      attempt_cases (YoutubeLoader_load w u false ["en"]);
      simpl; split; auto.
  - rewrite App_load_content_web by exact Hy. cbv zeta.
    destruct (UnstructuredURLLoader_load w [u] false web_headers)
      as [[s d | m | m] | [| d ds]]; simpl; split; auto.
Qed.

Lemma Streamlit_load_content_calls (w : Collaborators) (self : TextSummarizer)
    (u : string) :
  chain_calls (snd (run (StreamlitApp.load_content w self u))) = []
  /\ messages (snd (run (StreamlitApp.load_content w self u))) = []
  /\ List.length (calls (snd (run (StreamlitApp.load_content w self u)))) <= 2.
Proof.
  destruct (is_youtube u) eqn:Hy.
  - unfold StreamlitApp.load_content. rewrite Hy.
    unfold StreamlitApp.extract_youtube_content. py_unfold.
    attempt_cases (YoutubeLoader_load w u true ["en"]);
      attempt_cases (YoutubeLoader_load w u false ["en"]);
      simpl; repeat split; auto.
  - rewrite Streamlit_load_content_web by exact Hy. cbv zeta.
    destruct (UnstructuredURLLoader_load w [u] false web_headers)
      as [e | [| d ds]]; simpl; repeat split; auto.
Qed.

(** What [generate_summary] does, in full. *)
Lemma App_generate_summary_run (w : Collaborators) (self : TextSummarizer)
    (docs : list Document) :
  run (App.generate_summary w self docs) =
  let c := CallChain (llm self) "stuff" (prompt self) docs in
  match chain_run w (llm self) "stuff" (prompt self) docs with
  | inl e =>
      (inl (HTTPException 500 ("Failed to generate summary: " ++ str e)),
       [c; Log ERROR ("Error generating summary: " ++ str e)])
  | inr text => (inr text, [c])
  end.
Proof.
  unfold App.generate_summary. py_unfold.
  destruct (chain_run w (llm self) "stuff" (prompt self) docs); reflexivity.
Qed.

Lemma Streamlit_generate_summary_run (w : Collaborators)
    (self : TextSummarizer) (docs : list Document) :
  run (StreamlitApp.generate_summary w self docs) =
  let c := CallChain (llm self) "stuff" (prompt self) docs in
  match chain_run w (llm self) "stuff" (prompt self) docs with
  | inl e =>
      (inl (ValueError ("Failed to generate summary: " ++ str e)),
       [c; Log ERROR ("Error generating summary: " ++ str e)])
  | inr text => (inr text, [c])
  end.
Proof.
  unfold StreamlitApp.generate_summary. py_unfold.
  destruct (chain_run w (llm self) "stuff" (prompt self) docs); reflexivity.
Qed.

(** ** The endpoint as a whole *)

(** A request is refused by validation or it passes all three checks. *)
Lemma App_summarize_cases (w : Collaborators) (credential u : string) :
  ((strip credential = "" \/ strip u = ""
    \/ validators_url w (strip u) = false)
   /\ exists detail,
        In detail ["API Key is required"; "URL is required"; "Invalid URL provided"]
        /\ run (App.summarize w (request credential u)) =
           (inl (HTTPException 400 detail), []))
  \/ (strip credential <> "" /\ strip u <> ""
      /\ validators_url w (strip u) = true).
Proof.
  destruct (truthy_str (strip credential)) eqn:Hk;
    [destruct (truthy_str (strip u)) eqn:Hu;
       [destruct (validators_url w (strip u)) eqn:Hv |] |].
  - right. apply truthy_str_true in Hk, Hu. auto.
  - left. split; [auto |]. now apply App_summarize_invalid; auto.
  - left. apply truthy_str_false in Hu. split; [auto |].
    now apply App_summarize_invalid; auto.
  - left. apply truthy_str_false in Hk. split; [auto |].
    now apply App_summarize_invalid; auto.
Qed.

Lemma Streamlit_main_cases (w : Collaborators) (api_key u : string) :
  ((strip api_key = "" \/ strip u = "" \/ validators_url w u = false)
   /\ exists msg,
        In msg ["Please provide both API key and URL to get started";
                "Please enter a valid URL (YouTube video or website)"]
        /\ run (StreamlitApp.main w api_key u) = (inr tt, [StError msg]))
  \/ (strip api_key <> "" /\ strip u <> "" /\ validators_url w u = true).
Proof.
  destruct (truthy_str (strip api_key)) eqn:Hk;
    [destruct (truthy_str (strip u)) eqn:Hu;
       [destruct (validators_url w u) eqn:Hv |] |].
  - right. apply truthy_str_true in Hk, Hu. auto.
  - left. split; [auto |]. now apply Streamlit_main_invalid; auto.
  - left. apply truthy_str_false in Hu. split; [auto |].
    now apply Streamlit_main_invalid; auto.
  - left. apply truthy_str_false in Hk. split; [auto |].
    now apply Streamlit_main_invalid; auto.
Qed.

Lemma App_summarize_success (w : Collaborators)
    (credential u : string) (response : list (string * string)) :
  fst (run (App.summarize w (request credential u))) = inr response <->
  strip credential <> "" /\ strip u <> ""
  /\ validators_url w (strip u) = true
  /\ ChatGroq_init w GEMMA_MODEL (strip credential) = None
  /\ exists docs text,
       fst (run (App.load_content w (summarizer_for (strip credential)) (strip u)))
         = inr docs
       /\ docs <> []
       /\ chain_run w (mkChatGroq GEMMA_MODEL (strip credential)) "stuff"
            summary_prompt docs = inr text
       /\ response = [("summary", text)].
Proof.
  split.
  - intro H.
    destruct (App_summarize_cases w credential u)
      as [[_ (d & _ & Hr)] | (Hk & Hu & Hv)].
    { rewrite Hr in H. discriminate H. }
    rewrite (App_summarize_run w (request credential u) Hk Hu Hv) in H.
    simpl get_secret_value in H. simpl url in H. cbv zeta in H.
    repeat split; try assumption.
    + destruct (ChatGroq_init w GEMMA_MODEL (strip credential));
        [discriminate H | reflexivity].
    + destruct (ChatGroq_init w GEMMA_MODEL (strip credential));
        [discriminate H |].
      destruct (run (App.load_content w (summarizer_for (strip credential)) (strip u)))
        as [[e | docs] t1] eqn:Hl; [discriminate H |].
      rewrite App_generate_summary_run in H. cbv zeta in H. simpl llm in H.
      simpl prompt in H.
      destruct (chain_run w (mkChatGroq GEMMA_MODEL (strip credential)) "stuff"
                  (mkPromptTemplate summary_template ["text"]) docs)
        as [e | text] eqn:Hc; [discriminate H |].
      exists docs, text. repeat split.
      * apply (App_load_content_nonempty w (summarizer_for (strip credential))
                 (strip u)). now rewrite Hl.
      * exact Hc.
      * simpl in H. now injection H as <-.
  - intros (Hk & Hu & Hv & Hi & docs & text & Hl & _ & Hc & ->).
    rewrite (App_summarize_run w (request credential u) Hk Hu Hv).
    simpl get_secret_value. simpl url. cbv zeta. rewrite Hi.
    destruct (run (App.load_content w (summarizer_for (strip credential)) (strip u)))
      as [[e | docs'] t1]; simpl in Hl; [discriminate Hl |].
    injection Hl as ->.
    rewrite App_generate_summary_run. cbv zeta. simpl llm. simpl prompt.
    unfold summary_prompt in Hc. now rewrite Hc.
Qed.

(** X5: the endpoint answers with a summary exactly when the credential and
    the URL pass validation, the Groq client is built, [load_content]
    returns documents (at least one), and the chain, run on those very
    documents with the trimmed key, the fixed model and the fixed prompt,
    answers a text; the response is then the one-entry dict with that
    text. *)
Theorem endpoint_success_characterised (w : Collaborators)
    (credential u : string) (response : list (string * string)) :
  fst (run (App.summarize w (request credential u))) = inr response <->
  strip credential <> "" /\ strip u <> ""
  /\ validators_url w (strip u) = true
  /\ ChatGroq_init w GEMMA_MODEL (strip credential) = None
  /\ exists docs text,
       fst (run (App.load_content w (summarizer_for (strip credential)) (strip u)))
         = inr docs
       /\ docs <> []
       /\ chain_run w (mkChatGroq GEMMA_MODEL (strip credential)) "stuff"
            summary_prompt docs = inr text
       /\ response = [("summary", text)].
Proof. apply App_summarize_success. Qed.

(** X6: the summarize chain is run only after validation, the constructor
    and the load have all succeeded, and then exactly once, on the
    (non-empty) documents [load_content] returned.  When validation fails,
    when the constructor throws, or when the load fails, the language model
    is never called.  Endpoint and form alike, the form with the key and
    URL as typed. *)
Theorem chain_runs_once_on_loaded_documents (w : Collaborators)
    (credential u : string) :
  (* the endpoint never calls the chain after a failure *)
  (strip credential = "" \/ strip u = ""
   \/ validators_url w (strip u) = false
   \/ ChatGroq_init w GEMMA_MODEL (strip credential) <> None
   \/ (exists e,
         fst (run (App.load_content w (summarizer_for (strip credential)) (strip u)))
           = inl e) ->
   chain_calls (snd (run (App.summarize w (request credential u)))) = [])
  (* and calls it once on the loaded documents otherwise *)
  /\ (forall docs,
        strip credential <> "" -> strip u <> "" ->
        validators_url w (strip u) = true ->
        ChatGroq_init w GEMMA_MODEL (strip credential) = None ->
        fst (run (App.load_content w (summarizer_for (strip credential)) (strip u)))
          = inr docs ->
        docs <> []
        /\ chain_calls (snd (run (App.summarize w (request credential u)))) =
           [CallChain (mkChatGroq GEMMA_MODEL (strip credential)) "stuff"
              summary_prompt docs])
  (* the form never calls the chain after a failure *)
  /\ (strip credential = "" \/ strip u = ""
      \/ validators_url w u = false
      \/ ChatGroq_init w GEMMA_MODEL credential <> None
      \/ (exists e,
            fst (run (StreamlitApp.load_content w (summarizer_for credential) u))
              = inl e) ->
      chain_calls (snd (run (StreamlitApp.main w credential u))) = [])
  (* and calls it once on the loaded documents otherwise *)
  /\ (forall docs,
        strip credential <> "" -> strip u <> "" ->
        validators_url w u = true ->
        ChatGroq_init w GEMMA_MODEL credential = None ->
        fst (run (StreamlitApp.load_content w (summarizer_for credential) u))
          = inr docs ->
        docs <> []
        /\ chain_calls (snd (run (StreamlitApp.main w credential u))) =
           [CallChain (mkChatGroq GEMMA_MODEL credential) "stuff"
              summary_prompt docs]).
Proof.
  split; [| split; [| split]].
  - intro Hfail.
    destruct (App_summarize_cases w credential u)
      as [[_ (d & _ & Hr)] | (Hk & Hu & Hv)].
    { now rewrite Hr. }
    rewrite (App_summarize_run w (request credential u) Hk Hu Hv).
    simpl get_secret_value. simpl url. cbv zeta.
    destruct (ChatGroq_init w GEMMA_MODEL (strip credential)) as [e |].
    { destruct e; reflexivity. }
    destruct (App_load_content_calls w (summarizer_for (strip credential)) (strip u))
      as [Hnc _].
    destruct (run (App.load_content w (summarizer_for (strip credential)) (strip u)))
      as [[e | docs] t1]; simpl in Hnc.
    { unfold chain_calls in *. simpl. rewrite filter_app, Hnc.
      destruct e; reflexivity. }
    exfalso.
    destruct Hfail as [H | [H | [H | [H | [e H]]]]];
      try congruence; now try discriminate H.
  - intros docs Hk Hu Hv Hi Hl.
    split; [now apply (App_load_content_nonempty w
                         (summarizer_for (strip credential)) (strip u)) |].
    rewrite (App_summarize_run w (request credential u) Hk Hu Hv).
    simpl get_secret_value. simpl url. cbv zeta. rewrite Hi.
    destruct (App_load_content_calls w (summarizer_for (strip credential)) (strip u))
      as [Hnc _].
    destruct (run (App.load_content w (summarizer_for (strip credential)) (strip u)))
      as [[e | docs'] t1]; simpl in Hnc, Hl; [discriminate Hl |].
    injection Hl as ->.
    rewrite App_generate_summary_run. cbv zeta. simpl llm. simpl prompt.
    destruct (chain_run w _ "stuff" _ docs) as [e | text];
      unfold chain_calls in *; simpl; rewrite filter_app, Hnc; reflexivity.
  - intro Hfail.
    destruct (Streamlit_main_cases w credential u)
      as [[_ (m & _ & Hr)] | (Hk & Hu & Hv)].
    { now rewrite Hr. }
    rewrite (Streamlit_main_run w credential u Hk Hu Hv). cbv zeta.
    destruct (ChatGroq_init w GEMMA_MODEL credential) as [e |].
    { destruct e; reflexivity. }
    destruct (Streamlit_load_content_calls w (summarizer_for credential) u)
      as [Hnc _].
    destruct (run (StreamlitApp.load_content w (summarizer_for credential) u))
      as [[e | docs] t1]; simpl in Hnc.
    { unfold chain_calls in *. simpl. rewrite filter_app, Hnc.
      destruct e; reflexivity. }
    exfalso.
    destruct Hfail as [H | [H | [H | [H | [e H]]]]];
      try congruence; now try discriminate H.
  - intros docs Hk Hu Hv Hi Hl.
    split; [now apply (Streamlit_load_content_nonempty w
                         (summarizer_for credential) u) |].
    rewrite (Streamlit_main_run w credential u Hk Hu Hv). cbv zeta. rewrite Hi.
    destruct (Streamlit_load_content_calls w (summarizer_for credential) u)
      as [Hnc _].
    destruct (run (StreamlitApp.load_content w (summarizer_for credential) u))
      as [[e | docs'] t1]; simpl in Hnc, Hl; [discriminate Hl |].
    injection Hl as ->.
    rewrite Streamlit_generate_summary_run. cbv zeta. simpl llm. simpl prompt.
    destruct (chain_run w _ "stuff" _ docs) as [e | text];
      unfold chain_calls in *; simpl; rewrite filter_app, Hnc;
      try destruct e; reflexivity.
Qed.

Lemma calls_at_endpoint (e : exn) : calls (snd (at_endpoint e)) = [].
Proof. destruct e; reflexivity. Qed.

Lemma calls_at_form (e : exn) : calls (at_form e) = [].
Proof. destruct e; reflexivity. Qed.

(** X7: a request makes at most four collaborator calls, and the first of
    them, if there is any, builds the Groq client: nothing is fetched
    before the client exists.  The endpoint builds it from the trimmed
    credential, the form from the credential as typed. *)
Theorem at_most_four_calls_client_first (w : Collaborators)
    (credential u : string) :
  (calls (snd (run (App.summarize w (request credential u)))) = []
   \/ exists rest,
        calls (snd (run (App.summarize w (request credential u)))) =
          CallChatGroq GEMMA_MODEL (strip credential) :: rest
        /\ List.length rest <= 3)
  /\ (calls (snd (run (StreamlitApp.main w credential u))) = []
      \/ exists rest,
           calls (snd (run (StreamlitApp.main w credential u))) =
             CallChatGroq GEMMA_MODEL credential :: rest
           /\ List.length rest <= 3).
Proof.
  split.
  - destruct (App_summarize_cases w credential u)
      as [[_ (d & _ & Hr)] | (Hk & Hu & Hv)].
    { left. now rewrite Hr. }
    right. rewrite (App_summarize_run w (request credential u) Hk Hu Hv).
    simpl get_secret_value. simpl url. cbv zeta.
    destruct (ChatGroq_init w GEMMA_MODEL (strip credential)) as [e |].
    { eexists. simpl. rewrite calls_at_endpoint. split; [reflexivity | simpl; lia]. }
    destruct (App_load_content_calls w (summarizer_for (strip credential)) (strip u))
      as [_ Hlen].
    destruct (run (App.load_content w (summarizer_for (strip credential)) (strip u)))
      as [[e | docs] t1]; simpl in Hlen.
    { eexists. simpl. rewrite calls_app, calls_at_endpoint, app_nil_r.
      split; [reflexivity | lia]. }
    rewrite App_generate_summary_run. cbv zeta.
    destruct (chain_run w _ "stuff" _ docs) as [e | text]; eexists; simpl;
      rewrite !calls_app; simpl; (split; [reflexivity |]);
      rewrite length_app; simpl; lia.
  - destruct (Streamlit_main_cases w credential u)
      as [[_ (m & _ & Hr)] | (Hk & Hu & Hv)].
    { left. now rewrite Hr. }
    right. rewrite (Streamlit_main_run w credential u Hk Hu Hv). cbv zeta.
    destruct (ChatGroq_init w GEMMA_MODEL credential) as [e |].
    { eexists. simpl. rewrite calls_at_form. split; [reflexivity | simpl; lia]. }
    destruct (Streamlit_load_content_calls w (summarizer_for credential) u)
      as (_ & _ & Hlen).
    destruct (run (StreamlitApp.load_content w (summarizer_for credential) u))
      as [[e | docs] t1]; simpl in Hlen.
    { eexists. simpl. rewrite calls_app, calls_at_form, app_nil_r.
      split; [reflexivity | lia]. }
    rewrite Streamlit_generate_summary_run. cbv zeta.
    destruct (chain_run w _ "stuff" _ docs) as [e | text]; eexists; simpl;
      rewrite !calls_app, ?calls_at_form; simpl; (split; [reflexivity |]);
      rewrite length_app; simpl; lia.
Qed.

(** With third-party collaborators, the errors of [load_content]. *)
Lemma App_load_content_errors (w : Collaborators) (self : TextSummarizer)
    (u : string) (e : exn) (t : trace) :
  third_party w ->
  run (App.load_content w self u) = (inl e, t) ->
  endpoint_error e.
Proof.
  intros [Hweb _] H. destruct (is_youtube u) eqn:Hy.
  - unfold run in H. rewrite App_load_content_youtube in H by exact Hy.
    left. destruct (App_extract_raises_400 _ _ _ _ _ _ H) as [-> | ->];
      simpl; auto 6.
  - rewrite App_load_content_web in H by exact Hy. cbv zeta in H.
    destruct (UnstructuredURLLoader_load w [u] false web_headers)
      as [c | [| d ds]] eqn:E.
    + apply Hweb in E.
      destruct c; try discriminate E; injection H as <- _;
        right; eexists; left; reflexivity.
    + injection H as <- _. left. simpl. auto 7.
    + discriminate H.
Qed.

Lemma endpoint_error_not_guidance (e : exn) (s : Z) :
  endpoint_error e -> e <> HTTPException s youtube_guidance.
Proof.
  intros [Hin | [cause [-> | [-> | ->]]]] Heq.
  - simpl in Hin.
    repeat (destruct Hin as [<- | Hin]; [discriminate Heq |]). exact Hin.
  - discriminate Heq.
  - discriminate Heq.
  - discriminate Heq.
Qed.

(** X8: with third-party collaborators, every error of the endpoint is one
    of six fixed 400 messages or one of three wrappers around the text of
    a cause (400 "Failed to load content: ...", 500 "Failed to generate
    summary: ...", 500 "An unexpected error occurred: ...").  The
    three-point YouTube guidance of [load_content]'s last handler is not
    among them: the endpoint never answers with it. *)
Theorem endpoint_error_catalogue (w : Collaborators) (credential u : string)
    (e : exn) (t : trace) :
  third_party w ->
  run (App.summarize w (request credential u)) = (inl e, t) ->
  endpoint_error e /\ forall s, e <> HTTPException s youtube_guidance.
Proof.
  intros Htp Hrun.
  assert (He : endpoint_error e).
  { destruct (App_summarize_cases w credential u)
      as [[_ (d & Hd & Hr)] | (Hk & Hu & Hv)].
    - rewrite Hr in Hrun. injection Hrun as <- _. left. simpl in *.
      destruct Hd as [<- | [<- | [<- | []]]]; auto.
    - rewrite (App_summarize_run w (request credential u) Hk Hu Hv) in Hrun.
      simpl get_secret_value in Hrun. simpl url in Hrun. cbv zeta in Hrun.
      destruct (ChatGroq_init w GEMMA_MODEL (strip credential)) as [c |] eqn:Hi.
      + destruct Htp as [_ Hgroq]. apply Hgroq in Hi.
        destruct c; try discriminate Hi; injection Hrun as <- _;
          right; eexists; right; right; reflexivity.
      + destruct (run (App.load_content w (summarizer_for (strip credential)) (strip u)))
          as [[c | docs] t1] eqn:Hl.
        * pose proof (App_load_content_errors _ _ _ _ _ Htp Hl) as Hc.
          assert (Hs : fst (at_endpoint c) = c).
          { destruct Hc as [Hin | [cause [-> | [-> | ->]]]]; try reflexivity.
            simpl in Hin.
            repeat (destruct Hin as [<- | Hin]; [reflexivity |]). contradiction. }
          rewrite Hs in Hrun. injection Hrun as <- _. exact Hc.
        * rewrite App_generate_summary_run in Hrun. cbv zeta in Hrun.
          destruct (chain_run w _ "stuff" _ docs) as [c | text];
            [| discriminate Hrun].
          injection Hrun as <- _. right. eexists. right; left. reflexivity. }
  split; [exact He |]. intro s. now apply endpoint_error_not_guidance.
Qed.

(** ** The form as a whole *)

Lemma messages_app (t1 t2 : trace) :
  messages (t1 ++ t2)%list = (messages t1 ++ messages t2)%list.
Proof. apply filter_app. Qed.

Lemma exception_logs_app (t1 t2 : trace) :
  exception_logs (t1 ++ t2)%list = (exception_logs t1 ++ exception_logs t2)%list.
Proof. apply filter_app. Qed.

Lemma messages_at_form (e : exn) :
  messages (at_form e) =
  [StError match e with ValueError m => m | _ => apology end].
Proof. destruct e; reflexivity. Qed.

(** The errors of the form's [load_content], and what it leaves unlogged. *)
Lemma Streamlit_load_content_errors (w : Collaborators)
    (self : TextSummarizer) (u : string) :
  exception_logs (snd (run (StreamlitApp.load_content w self u))) = []
  /\ forall e, fst (run (StreamlitApp.load_content w self u)) = inl e ->
       e = ValueError youtube_guidance
       \/ exists cause, e = ValueError ("Failed to load content: " ++ cause).
Proof.
  destruct (is_youtube u) eqn:Hy.
  - unfold StreamlitApp.load_content. rewrite Hy.
    unfold StreamlitApp.extract_youtube_content. py_unfold.
    attempt_cases (YoutubeLoader_load w u true ["en"]);
      attempt_cases (YoutubeLoader_load w u false ["en"]);
      simpl; (split; [reflexivity |]); intros c H; inversion H; auto.
  - rewrite Streamlit_load_content_web by exact Hy. cbv zeta.
    destruct (UnstructuredURLLoader_load w [u] false web_headers)
      as [e | [| d ds]]; simpl; (split; [reflexivity |]); intros c H;
      inversion H; right; eexists; reflexivity.
Qed.

(** X9: pressing the button never ends in an exception, and every press
    puts exactly one message on the page, an error or the summary. *)
Theorem form_never_raises_one_message (w : Collaborators) (api_key u : string) :
  fst (run (StreamlitApp.main w api_key u)) = inr tt
  /\ List.length (messages (snd (run (StreamlitApp.main w api_key u)))) = 1.
Proof.
  destruct (Streamlit_main_cases w api_key u)
    as [[_ (m & _ & Hr)] | (Hk & Hu & Hv)].
  { rewrite Hr. now split. }
  rewrite (Streamlit_main_run w api_key u Hk Hu Hv). cbv zeta.
  destruct (ChatGroq_init w GEMMA_MODEL api_key) as [e |].
  { split; [reflexivity |]. simpl. now rewrite messages_at_form. }
  destruct (Streamlit_load_content_calls w (summarizer_for api_key) u)
    as (_ & Hm & _).
  destruct (run (StreamlitApp.load_content w (summarizer_for api_key) u))
    as [[e | docs] t1]; simpl in Hm.
  { split; [reflexivity |]. simpl.
    now rewrite messages_app, Hm, messages_at_form. }
  rewrite Streamlit_generate_summary_run. cbv zeta.
  destruct (chain_run w _ "stuff" _ docs) as [e | text];
    (split; [reflexivity |]); simpl; rewrite messages_app, Hm; reflexivity.
Qed.

(** X10: once the form has built the summarizer, [logger.exception] and the
    apology are out of reach: whatever the loaders and the chain throw,
    the page shows the summary, the YouTube guidance, or a
    "Failed to load content: ..." / "Failed to generate summary: ..."
    message with the text of the cause. *)
Theorem form_apology_only_for_constructor (w : Collaborators)
    (api_key u : string) :
  strip api_key <> "" -> strip u <> "" -> validators_url w u = true ->
  ChatGroq_init w GEMMA_MODEL api_key = None ->
  exception_logs (snd (run (StreamlitApp.main w api_key u))) = []
  /\ ((exists text,
         messages (snd (run (StreamlitApp.main w api_key u))) = [StSuccess text])
      \/ messages (snd (run (StreamlitApp.main w api_key u))) =
           [StError youtube_guidance]
      \/ (exists cause,
            messages (snd (run (StreamlitApp.main w api_key u))) =
              [StError ("Failed to load content: " ++ cause)])
      \/ (exists cause,
            messages (snd (run (StreamlitApp.main w api_key u))) =
              [StError ("Failed to generate summary: " ++ cause)])).
Proof.
  intros Hk Hu Hv Hi.
  rewrite (Streamlit_main_run w api_key u Hk Hu Hv). cbv zeta. rewrite Hi.
  destruct (Streamlit_load_content_calls w (summarizer_for api_key) u)
    as (_ & Hm & _).
  destruct (Streamlit_load_content_errors w (summarizer_for api_key) u)
    as [Hx Herr].
  destruct (run (StreamlitApp.load_content w (summarizer_for api_key) u))
    as [[e | docs] t1]; simpl in Hm, Hx, Herr.
  - destruct (Herr e eq_refl) as [-> | [cause ->]]; simpl;
      rewrite exception_logs_app, messages_app, Hm, Hx; simpl;
      (split; [reflexivity |]).
    + right; left. reflexivity.
    + right; right; left. now exists cause.
  - rewrite Streamlit_generate_summary_run. cbv zeta.
    destruct (chain_run w _ "stuff" _ docs) as [e | text]; simpl;
      rewrite exception_logs_app, messages_app, Hm, Hx; simpl;
      (split; [reflexivity |]).
    + right; right; right. now eexists.
    + left. now eexists.
Qed.

Lemma Streamlit_main_success (w : Collaborators) (api_key u text : string) :
  messages (snd (run (StreamlitApp.main w api_key u))) = [StSuccess text] <->
  strip api_key <> "" /\ strip u <> "" /\ validators_url w u = true
  /\ ChatGroq_init w GEMMA_MODEL api_key = None
  /\ exists docs,
       fst (run (StreamlitApp.load_content w (summarizer_for api_key) u)) = inr docs
       /\ docs <> []
       /\ chain_run w (mkChatGroq GEMMA_MODEL api_key) "stuff"
            summary_prompt docs = inr text.
Proof.
  split.
  - intro H.
    destruct (Streamlit_main_cases w api_key u)
      as [[_ (m & _ & Hr)] | (Hk & Hu & Hv)].
    { rewrite Hr in H. discriminate H. }
    rewrite (Streamlit_main_run w api_key u Hk Hu Hv) in H. cbv zeta in H.
    destruct (ChatGroq_init w GEMMA_MODEL api_key) as [e |].
    { simpl in H. rewrite messages_at_form in H. discriminate H. }
    repeat split; try assumption.
    destruct (Streamlit_load_content_calls w (summarizer_for api_key) u)
      as (_ & Hm & _).
    pose proof (Streamlit_load_content_nonempty w (summarizer_for api_key) u) as Hne.
    destruct (run (StreamlitApp.load_content w (summarizer_for api_key) u))
      as [[e | docs] t1]; simpl in Hm.
    { simpl in H. rewrite messages_app, Hm, messages_at_form in H. discriminate H. }
    rewrite Streamlit_generate_summary_run in H. cbv zeta in H.
    simpl llm in H. simpl prompt in H.
    destruct (chain_run w (mkChatGroq GEMMA_MODEL api_key) "stuff"
                (mkPromptTemplate summary_template ["text"]) docs)
      as [e | text'] eqn:Hc; simpl in H; rewrite messages_app, Hm in H.
    { simpl in H. destruct e; discriminate H. }
    simpl in H. injection H as ->.
    exists docs. repeat split; [now apply Hne | exact Hc].
  - intros (Hk & Hu & Hv & Hi & docs & Hl & _ & Hc).
    rewrite (Streamlit_main_run w api_key u Hk Hu Hv). cbv zeta. rewrite Hi.
    destruct (Streamlit_load_content_calls w (summarizer_for api_key) u)
      as (_ & Hm & _).
    destruct (run (StreamlitApp.load_content w (summarizer_for api_key) u))
      as [[e | docs'] t1]; simpl in Hl, Hm; [discriminate Hl |].
    injection Hl as ->.
    rewrite Streamlit_generate_summary_run. cbv zeta. simpl llm. simpl prompt.
    unfold summary_prompt in Hc. rewrite Hc. simpl.
    now rewrite messages_app, Hm.
Qed.

(** X11: the form shows a summary exactly when the inputs pass its checks,
    the Groq client is built from the key as typed, [load_content] returns
    documents for the URL as typed, and the chain answers on them; the
    text shown is the chain's answer. *)
Theorem form_success_characterised (w : Collaborators)
    (api_key u text : string) :
  messages (snd (run (StreamlitApp.main w api_key u))) = [StSuccess text] <->
  strip api_key <> "" /\ strip u <> "" /\ validators_url w u = true
  /\ ChatGroq_init w GEMMA_MODEL api_key = None
  /\ exists docs,
       fst (run (StreamlitApp.load_content w (summarizer_for api_key) u)) = inr docs
       /\ docs <> []
       /\ chain_run w (mkChatGroq GEMMA_MODEL api_key) "stuff"
            summary_prompt docs = inr text.
Proof. apply Streamlit_main_success. Qed.

(** ** The two front ends side by side *)

(** Both [load_content]s succeed on the same inputs, with the same
    documents. *)
Lemma load_content_success_agree (w : Collaborators) (self : TextSummarizer)
    (u : string) (docs : list Document) :
  fst (run (App.load_content w self u)) = inr docs <->
  fst (run (StreamlitApp.load_content w self u)) = inr docs.
Proof.
  destruct (is_youtube u) eqn:Hy.
  - unfold App.load_content, StreamlitApp.load_content. rewrite Hy.
    unfold App.extract_youtube_content, StreamlitApp.extract_youtube_content.
    py_unfold.
    attempt_cases (YoutubeLoader_load w u true ["en"]);
      attempt_cases (YoutubeLoader_load w u false ["en"]);
      simpl; split; intro H; inversion H; reflexivity.
  - rewrite App_load_content_web, Streamlit_load_content_web by exact Hy.
    cbv zeta.
    destruct (UnstructuredURLLoader_load w [u] false web_headers)
      as [[s d | m | m] | [| d ds]]; simpl; split; intro H; inversion H;
      reflexivity.
Qed.

(** X12: the endpoint is the form run on trimmed inputs, as far as success
    goes: the endpoint answers a request with the summary [text] exactly
    when the form, given the trimmed credential and the trimmed URL, shows
    [text] as its success message. *)
Theorem endpoint_is_form_on_trimmed_inputs (w : Collaborators)
    (credential u text : string) :
  fst (run (App.summarize w (request credential u))) = inr [("summary", text)]
  <->
  messages (snd (run (StreamlitApp.main w (strip credential) (strip u)))) =
    [StSuccess text].
Proof.
  rewrite App_summarize_success, Streamlit_main_success, !strip_idempotent.
  split.
  - intros (Hk & Hu & Hv & Hi & docs & text' & Hl & Hne & Hc & Heq).
    injection Heq as ->. repeat split; try assumption.
    exists docs. repeat split; try assumption.
    now apply load_content_success_agree.
  - intros (Hk & Hu & Hv & Hi & docs & Hl & Hne & Hc).
    repeat split; try assumption.
    exists docs, text. repeat split; try assumption.
    now apply load_content_success_agree.
Qed.

(** X13: when the Groq client's constructor throws in the form, nothing is
    fetched and no chain is run; the text of a [ValueError] is shown on the
    page as it is and nothing is logged, any other exception is logged and
    the page shows only the apology. *)
Theorem form_constructor_failure (w : Collaborators)
    (api_key u : string) (e : exn) :
  strip api_key <> "" ->
  strip u <> "" ->
  validators_url w u = true ->
  ChatGroq_init w GEMMA_MODEL api_key = Some e ->
  run (StreamlitApp.main w api_key u) =
    (inr tt,
     CallChatGroq GEMMA_MODEL api_key ::
     match e with
     | ValueError m => [StError m]
     | _ => [LogException "Unexpected error occurred" e; StError apology]
     end).
Proof.
  intros Hk Hu Hv Hi.
  rewrite (Streamlit_main_run w api_key u Hk Hu Hv). cbv zeta. rewrite Hi.
  destruct e; reflexivity.
Qed.

(** ** The further properties at concrete inputs *)

Lemma blank_inputs_by_priority_witness :
  all_space "  " = true
  /\ run (App.summarize happy_world (request "  " "")) =
     (inl (HTTPException 400 "API Key is required"), [])
  /\ all_space "gsk_live" = false
  /\ run (App.summarize happy_world (request "gsk_live" "  ")) =
     (inl (HTTPException 400 "URL is required"), []).
Proof.
  split; [reflexivity |]. split.
  - destruct (blank_inputs_by_priority happy_world "  " "") as [H _].
    apply (H eq_refl).
  - split; [reflexivity |].
    destruct (blank_inputs_by_priority happy_world "gsk_live" "  ") as [_ H].
    apply (H eq_refl eq_refl).
Defined.

Lemma load_content_never_empty_witness :
  fst (run (App.load_content happy_world a_summarizer "https://example.com")) =
    inr [page]
  /\ [page] <> [].
Proof.
  split; [reflexivity |].
  destruct (load_content_never_empty happy_world a_summarizer
              "https://example.com" [page]) as [H _].
  apply (H eq_refl).
Defined.

Lemma web_loader_exception_is_reported_witness :
  is_youtube "https://example.com" = false
  /\ run (App.load_content failing_loader_world a_summarizer "https://example.com") =
     (inl (HTTPException 400
             "Failed to load content: HTTPSConnectionPool: timed out"),
      [CallUnstructuredURLLoader ["https://example.com"] false web_headers;
       Log ERROR
         "Error loading content from URL https://example.com: HTTPSConnectionPool: timed out"]).
Proof.
  split; [reflexivity |].
  destruct (web_loader_exception_is_reported failing_loader_world a_summarizer
              "https://example.com"
              (OtherException "HTTPSConnectionPool: timed out")
              eq_refl eq_refl eq_refl) as [H _].
  exact H.
Defined.

Lemma endpoint_error_catalogue_witness :
  third_party empty_world
  /\ HTTPException 400 no_youtube_content <> HTTPException 400 youtube_guidance.
Proof.
  assert (Htp : third_party empty_world)
    by (apply third_party_stub; intros key e H; discriminate H).
  split; [exact Htp |].
  destruct (endpoint_error_catalogue empty_world "gsk_live"
              "https://youtu.be/dQw4w9WgXcQ"
              (HTTPException 400 no_youtube_content)
              [CallChatGroq GEMMA_MODEL "gsk_live";
               CallYoutubeLoader "https://youtu.be/dQw4w9WgXcQ" true ["en"];
               CallYoutubeLoader "https://youtu.be/dQw4w9WgXcQ" false ["en"]]
              Htp eq_refl) as [_ H].
  apply H.
Defined.

Lemma form_apology_only_for_constructor_witness :
  strip "gsk_live" <> "" /\ strip "https://youtu.be/dQw4w9WgXcQ" <> ""
  /\ exception_logs
       (snd (run (StreamlitApp.main empty_world "gsk_live"
                    "https://youtu.be/dQw4w9WgXcQ"))) = [].
Proof.
  assert (Hk : strip "gsk_live" <> "") by (vm_compute; discriminate).
  assert (Hu : strip "https://youtu.be/dQw4w9WgXcQ" <> "")
    by (vm_compute; discriminate).
  split; [exact Hk |]. split; [exact Hu |].
  destruct (form_apology_only_for_constructor empty_world "gsk_live"
              "https://youtu.be/dQw4w9WgXcQ" Hk Hu eq_refl eq_refl) as [H _].
  exact H.
Defined.

Lemma form_constructor_failure_witness :
  strip "sk-wrong" <> "" /\ strip "https://example.com" <> ""
  /\ run (StreamlitApp.main strict_client_world "sk-wrong" "https://example.com") =
     (inr tt,
      [CallChatGroq GEMMA_MODEL "sk-wrong";
       StError "groq_api_key: malformed key"]).
Proof.
  assert (Hk : strip "sk-wrong" <> "") by (vm_compute; discriminate).
  assert (Hu : strip "https://example.com" <> "") by (vm_compute; discriminate).
  split; [exact Hk |]. split; [exact Hu |].
  apply (form_constructor_failure strict_client_world "sk-wrong"
           "https://example.com" (ValueError "groq_api_key: malformed key")
           Hk Hu eq_refl eq_refl).
Defined.

Lemma chain_runs_once_on_loaded_documents_witness :
  chain_calls (snd (run (App.summarize strict_client_world
                           (request "sk-wrong" "https://example.com")))) = []
  /\ chain_calls (snd (run (App.summarize happy_world
                              (request "   " "https://example.com")))) = []
  /\ chain_calls (snd (run (App.summarize happy_world
                              (request " gsk_live " "https://example.com")))) =
     [CallChain (mkChatGroq GEMMA_MODEL "gsk_live") "stuff" summary_prompt [page]]
  /\ chain_calls (snd (run (StreamlitApp.main empty_world
                              "gsk_live" "https://example.com"))) = [].
Proof.
  assert (Hk : strip " gsk_live " <> "") by (vm_compute; discriminate).
  assert (Hu : strip "https://example.com" <> "") by (vm_compute; discriminate).
  split; [| split; [| split]].
  - destruct (chain_runs_once_on_loaded_documents strict_client_world
                "sk-wrong" "https://example.com") as (H & _).
    apply H. right; right; right; left. vm_compute. discriminate.
  - destruct (chain_runs_once_on_loaded_documents happy_world
                "   " "https://example.com") as (H & _).
    apply H. left. reflexivity.
  - destruct (chain_runs_once_on_loaded_documents happy_world
                " gsk_live " "https://example.com") as (_ & H & _).
    apply (H [page] Hk Hu eq_refl eq_refl eq_refl).
  - destruct (chain_runs_once_on_loaded_documents empty_world
                "gsk_live" "https://example.com") as (_ & _ & H & _).
    apply H. right; right; right; right.
    exists (ValueError
              "Failed to load content: No content could be extracted from the URL").
    reflexivity.
Defined.

Example endpoint_transcript_failure_detail :
  fst (run (App.summarize empty_world
              (request "gsk_live" "https://youtu.be/dQw4w9WgXcQ"))) =
    inl (HTTPException 400 "No content could be extracted from the YouTube video").
Proof. reflexivity. Qed.
